(** * Stratix assistant: the Dialogflow backend-for-frontend function

    A shallow embedding of [gcloud-function/main.py]: the free-text
    extractors, the tag and parameter mappers, credential lookup, the
    outbound call to the Supabase edge function, response enrichment and the
    two reply shapes, followed by the properties of the request normaliser.

    Python values are modelled as follows.
    - [str] is a sequence of Unicode code points ([list N]).
    - A parsed JSON document is a [json] tree; objects are finite maps
      ([gmap]) from strings to values, which is all the handler uses of a
      [dict] (membership, [get], item assignment).
    - Exceptions are values of [exn]; code that may raise lives in [res].
    - The one local variable that can be read while unbound
      ([tool_name_full]) is kept in an explicit [frame].
    - [print] calls are logging and are left out. *)

From Stdlib Require Import NArith ZArith List String Ascii PrimFloat DecimalString.
From stdpp Require Import gmap strings list.

Set Warnings "-register-all".
#[local] Open Scope N_scope.

(** ** Python strings *)

Abbreviation pystr := (list N).

Module Py.

Fixpoint bytes_of (s : string) : list N :=
  match s with
  | EmptyString => []
  | String a r => N_of_ascii a :: bytes_of r
  end.

(** UTF-8 decoding of a source literal into code points. *)
Fixpoint utf8_decode (fuel : nat) (bs : list N) : pystr :=
  match fuel with
  | O => []
  | S fuel =>
    match bs with
    | [] => []
    | b :: r =>
      if b <? 128 then b :: utf8_decode fuel r
      else if b <? 224 then
        match r with
        | c1 :: r' => (b - 192) * 64 + (c1 - 128) :: utf8_decode fuel r'
        | _ => []
        end
      else if b <? 240 then
        match r with
        | c1 :: c2 :: r' =>
            (b - 224) * 4096 + (c1 - 128) * 64 + (c2 - 128) :: utf8_decode fuel r'
        | _ => []
        end
      else
        match r with
        | c1 :: c2 :: c3 :: r' =>
            (b - 240) * 262144 + (c1 - 128) * 4096 + (c2 - 128) * 64 + (c3 - 128)
              :: utf8_decode fuel r'
        | _ => []
        end
    end
  end.

(** [u "text"] is the Python string literal ['text']. *)
Definition u (s : string) : pystr :=
  let b := bytes_of s in utf8_decode (length b) b.
#[global] Opaque u.

(** [str.isspace] on one character, the class behind [str.strip()] and the
    regular expression escape [\s] on [str] patterns. *)
Definition isspace (c : N) : bool :=
  ((9 <=? c) && (c <=? 13)) || ((28 <=? c) && (c <=? 32))
  || (c =? 133) || (c =? 160) || (c =? 5760)
  || ((8192 <=? c) && (c <=? 8202))
  || (c =? 8232) || (c =? 8233) || (c =? 8239) || (c =? 8287) || (c =? 12288).

Fixpoint lstrip (s : pystr) : pystr :=
  match s with
  | c :: r => if isspace c then lstrip r else s
  | [] => []
  end.

Definition rstrip (s : pystr) : pystr := rev (lstrip (rev s)).

(** [s.strip()] *)
Definition strip (s : pystr) : pystr := rstrip (lstrip s).

Fixpoint is_prefix (p s : pystr) : bool :=
  match p, s with
  | [], _ => true
  | a :: p', b :: s' => (a =? b) && is_prefix p' s'
  | _ :: _, [] => false
  end.

(** [p in s] for two strings. *)
Fixpoint is_substring (p s : pystr) : bool :=
  is_prefix p s ||
  match s with
  | [] => false
  | _ :: s' => is_substring p s'
  end.

(** ** JSON values, as [json.loads] and [flask.Request.get_json] build them *)

Inductive json :=
| JNull
| JBool (b : bool)
| JInt (z : Z)
| JFloat (f : float)
| JStr (s : pystr)
| JArr (l : list json)
| JObj (m : gmap pystr json).

(** Truth value of an object in a condition ([if v], [not v], [a or b]). *)
Definition truthy (v : json) : bool :=
  match v with
  | JNull => false
  | JBool b => b
  | JInt z => negb (z =? 0)%Z
  | JFloat f => negb (PrimFloat.eqb f 0%float)
  | JStr s => match s with [] => false | _ => true end
  | JArr l => match l with [] => false | _ => true end
  | JObj m => negb (bool_decide (m = ∅))
  end.

Definition truthy_str (s : pystr) : bool := truthy (JStr s).

(** [v == 'literal'] *)
Definition eq_str (v : json) (s : pystr) : bool :=
  match v with
  | JStr t => bool_decide (t = s)
  | _ => false
  end.

(** ** Exceptions *)

Inductive exn :=
| ValueError (msg : pystr)
| AttributeError (obj : json) (attr : pystr)
| TypeError (op : pystr) (obj : json)
| KeyError (key : pystr)
| UnboundLocalError (var : pystr)
| RequestException (msg : pystr)
| OtherException (msg : pystr).

(** [isinstance(e, requests.exceptions.RequestException)] *)
Definition is_request_exception (e : exn) : bool :=
  match e with
  | RequestException _ => true
  | _ => false
  end.

Inductive res (A : Type) :=
| Ok (a : A)
| Raise (e : exn).
Arguments Ok {A} a.
Arguments Raise {A} e.

#[global] Instance res_ret : MRet res := fun A a => Ok a.
#[global] Instance res_bind : MBind res := fun A B f r =>
  match r with
  | Ok a => f a
  | Raise e => Raise e
  end.

(** [k in v] *)
Definition contains (k : pystr) (v : json) : res bool :=
  match v with
  | JObj m => Ok (bool_decide (is_Some (m !! k)))
  | JArr l => Ok (existsb (fun x => eq_str x k) l)
  | JStr s => Ok (is_substring k s)
  | _ => Raise (TypeError (u "in") v)
  end.

(** [v.get(k, d)], [v.get(k)] being [v.get(k, None)] *)
Definition get (v : json) (k : pystr) (d : json) : res json :=
  match v with
  | JObj m => Ok (default d (m !! k))
  | _ => Raise (AttributeError v (u "get"))
  end.

(** [v[k]] with a string key *)
Definition getitem (v : json) (k : pystr) : res json :=
  match v with
  | JObj m =>
      match m !! k with
      | Some x => Ok x
      | None => Raise (KeyError k)
      end
  | _ => Raise (TypeError (u "getitem") v)
  end.

(** [v[k] = x] with a string key; the dict is updated in place, which the
    model renders by returning the updated object. *)
Definition setitem (v : json) (k : pystr) (x : json) : res json :=
  match v with
  | JObj m => Ok (JObj (<[k := x]> m))
  | _ => Raise (TypeError (u "setitem") v)
  end.

(** What the handler takes from the Python runtime without defining it:
    the Unicode case mappings behind [str.lower] and [str.title], [str()] of
    a JSON value as an f-string renders it, and the message text of the
    exceptions raised by the interpreter itself. *)
Class Runtime := {
  str_lower : pystr -> pystr;
  str_title : pystr -> pystr;
  str_of : json -> pystr;
  builtin_message : exn -> pystr;
}.

(** [str(e)] *)
Definition str_exn `{Runtime} (e : exn) : pystr :=
  match e with
  | ValueError msg | RequestException msg | OtherException msg => msg
  | _ => builtin_message e
  end.

End Py.

(** ** Regular expressions: the fragment of [re] the extractors use

    Patterns are kept as syntax trees and run by a backtracking matcher with
    the priorities of [re]: a greedy repetition takes as much as it can and
    gives back one character at a time, an optional part is tried before it
    is skipped, and the left branch of an alternation comes first. *)

Module Re.

Inductive cls :=
| Lit (c : N)        (* the character itself *)
| Space              (* \s *)
| Not (c : N).       (* [^c] *)

Inductive regex :=
| Eps
| One (c : cls)
| Many1 (c : cls)            (* c+ *)
| Cat (r1 r2 : regex)        (* r1r2 *)
| Alt (r1 r2 : regex)        (* r1|r2 *)
| Opt (r : regex)            (* (?:r)? *)
| Grp (r : regex)            (* (r), the capturing group 1 *)
| Bol.                       (* ^ *)

Definition accepts (c : cls) (x : N) : bool :=
  match c with
  | Lit y => x =? y
  | Space => Py.isspace x
  | Not y => negb (x =? y)
  end.

(** The literal word [s], one character after the other. *)
Fixpoint word (s : pystr) : regex :=
  match s with
  | [] => Eps
  | [c] => One (Lit c)
  | c :: r => Cat (One (Lit c)) (word r)
  end.

(** Matcher state: index into the subject, the text from there on, and what
    group 1 holds so far. *)
Record mstate := { m_pos : nat; m_rest : pystr; m_grp : option pystr }.

Section matcher.
Context {A : Type}.

(** [c+] at [rest]: longest run first, then shorter ones. *)
Fixpoint many1 (c : cls) (pos : nat) (rest : pystr)
    (k : nat -> pystr -> option A) : option A :=
  match rest with
  | x :: xs =>
      if accepts c x then
        match many1 c (S pos) xs k with
        | Some a => Some a
        | None => k (S pos) xs
        end
      else None
  | [] => None
  end.

Fixpoint run (r : regex) (s : mstate) (k : mstate -> option A) : option A :=
  match r with
  | Eps => k s
  | One c =>
      match m_rest s with
      | x :: xs =>
          if accepts c x
          then k {| m_pos := S (m_pos s); m_rest := xs; m_grp := m_grp s |}
          else None
      | [] => None
      end
  | Many1 c =>
      many1 c (m_pos s) (m_rest s)
        (fun p xs => k {| m_pos := p; m_rest := xs; m_grp := m_grp s |})
  | Cat r1 r2 => run r1 s (fun s' => run r2 s' k)
  | Alt r1 r2 =>
      match run r1 s k with
      | Some a => Some a
      | None => run r2 s k
      end
  | Opt r1 =>
      match run r1 s k with
      | Some a => Some a
      | None => k s
      end
  | Grp r1 =>
      run r1 s (fun s' =>
        k {| m_pos := m_pos s'; m_rest := m_rest s';
             m_grp := Some (take (m_pos s' - m_pos s)%nat (m_rest s)) |})
  | Bol => if (m_pos s =? 0)%nat then k s else None
  end.
End matcher.

(** A match object: where the match ends in the subject, the text after it,
    and [group(1)] ([None] when the group took no part in the match). *)
Definition match_at (r : regex) (pos : nat) (rest : pystr) : option mstate :=
  run r {| m_pos := pos; m_rest := rest; m_grp := None |} Some.

(** [re.search(r, s)]: the first index, from the left, at which [r] matches. *)
Fixpoint search_from (r : regex) (pos : nat) (rest : pystr) : option mstate :=
  match match_at r pos rest with
  | Some m => Some m
  | None =>
      match rest with
      | [] => None
      | _ :: xs => search_from r (S pos) xs
      end
  end.

Definition search (r : regex) (s : pystr) : option mstate := search_from r 0 s.

(** [re.sub(r, '', s)] for a pattern [r] that opens with [^] and, as both
    clean-up patterns of the extractors do, has no empty match: without the
    MULTILINE flag such a pattern matches at index 0 or nowhere, so the scan
    deletes that one match, if any, and keeps the rest of [s]. *)
Definition sub_anchored (r : regex) (s : pystr) : pystr :=
  match match_at r 0 s with
  | Some m => m_rest m
  | None => s
  end.

End Re.

Infix "·" := Re.Cat (at level 40, left associativity).

Import Py.

(** ** Free-text extraction *)

Section extraction.
Context `{Runtime}.

Definition spaces : Re.regex := Re.Many1 Re.Space.

(** [[^?]+] inside group 1 *)
Definition up_to_question_mark : Re.regex := Re.Grp (Re.Many1 (Re.Not 63)).

(** The [patterns] list of [extract_initiative_name_from_text]:
    - [iniciativa\s+(?:de\s+)?([^?]+)]
    - [(?:progreso|estado)\s+de\s+(?:la\s+)?([^?]+)]
    - [(?:cómo\s+va)\s+(?:la\s+)?([^?]+)] *)
Definition initiative_patterns : list Re.regex :=
  [ Re.word (u "iniciativa") · spaces · Re.Opt (Re.word (u "de") · spaces)
      · up_to_question_mark;
    Re.Alt (Re.word (u "progreso")) (Re.word (u "estado")) · spaces
      · Re.word (u "de") · spaces · Re.Opt (Re.word (u "la") · spaces)
      · up_to_question_mark;
    (Re.word (u "cómo") · spaces · Re.word (u "va")) · spaces
      · Re.Opt (Re.word (u "la") · spaces) · up_to_question_mark ].

(** [^(?:la\s+)?iniciativa\s+(?:de\s+)?] *)
Definition initiative_cleanup : Re.regex :=
  Re.Bol · Re.Opt (Re.word (u "la") · spaces) · Re.word (u "iniciativa") · spaces
    · Re.Opt (Re.word (u "de") · spaces).

(** The [patterns] list of [extract_area_name_from_text]:
    - [área\s+(?:de\s+)?([^?]+)]
    - [división\s+(?:de\s+)?([^?]+)]
    - [departamento\s+(?:de\s+)?([^?]+)]
    - [(?:kpis?\s+del?\s+área\s+(?:de\s+)?)([^?]+)] *)
Definition area_patterns : list Re.regex :=
  [ Re.word (u "área") · spaces · Re.Opt (Re.word (u "de") · spaces)
      · up_to_question_mark;
    Re.word (u "división") · spaces · Re.Opt (Re.word (u "de") · spaces)
      · up_to_question_mark;
    Re.word (u "departamento") · spaces · Re.Opt (Re.word (u "de") · spaces)
      · up_to_question_mark;
    (Re.word (u "kpi") · Re.Opt (Re.One (Re.Lit 115)) · spaces
      · Re.word (u "de") · Re.Opt (Re.One (Re.Lit 108)) · spaces
      · Re.word (u "área") · spaces · Re.Opt (Re.word (u "de") · spaces))
      · up_to_question_mark ].

(** [^(?:la\s+|el\s+)?(?:área|división|departamento)\s+(?:de\s+)?] *)
Definition area_cleanup : Re.regex :=
  Re.Bol
    · Re.Opt (Re.Alt (Re.word (u "la") · spaces) (Re.word (u "el") · spaces))
    · Re.Alt (Re.word (u "área"))
             (Re.Alt (Re.word (u "división")) (Re.word (u "departamento")))
    · spaces · Re.Opt (Re.word (u "de") · spaces).

(** [text.lower().strip()]; [text] is whatever the request carried. *)
Definition lower_strip (text : json) : res pystr :=
  match text with
  | JStr s => Ok (strip (str_lower s))
  | _ => Raise (AttributeError text (u "lower"))
  end.

(** [match.group(1).strip()] *)
Definition group1_strip (m : Re.mstate) : res pystr :=
  match Re.m_grp m with
  | Some g => Ok (strip g)
  | None => Raise (AttributeError JNull (u "strip"))
  end.

(** The [for pattern in patterns] loop shared by the two extractors: the
    first pattern found in the text decides, later ones are not tried. *)
Fixpoint scan_patterns (cleanup : Re.regex) (patterns : list Re.regex)
    (text_lower : pystr) : res json :=
  match patterns with
  | [] => Ok JNull
  | pattern :: rest =>
      match Re.search pattern text_lower with
      | Some m =>
          name ← group1_strip m;
          Ok (JStr (str_title (Re.sub_anchored cleanup name)))
      | None => scan_patterns cleanup rest text_lower
      end
  end.

Definition extract_initiative_name_from_text (text : json) : res json :=
  text_lower ← lower_strip text;
  scan_patterns initiative_cleanup initiative_patterns text_lower.

Definition extract_area_name_from_text (text : json) : res json :=
  text_lower ← lower_strip text;
  scan_patterns area_cleanup area_patterns text_lower.

End extraction.

(** ** A runtime for text within Latin-1

    Exact for strings whose characters lie in U+0000..U+00FF and for [str()]
    of [None], booleans, integers and strings; characters beyond Latin-1 are
    left as they are, the [repr] of floats, lists and dicts is not reproduced
    (an ellipsis stands for it), and the interpreter's messages follow the
    wording of CPython 3.11. *)

Module Latin1.

Definition is_upper (c : N) : bool :=
  ((65 <=? c) && (c <=? 90)) || ((192 <=? c) && (c <=? 222) && negb (c =? 215)).

(** Lower-case letters whose capital lies 32 code points below. *)
Definition is_lower_paired (c : N) : bool :=
  ((97 <=? c) && (c <=? 122)) || ((224 <=? c) && (c <=? 254) && negb (c =? 247)).

(** The Unicode property Cased: letters with case, plus the ordinal
    indicators, micro sign, sharp s and y with diaeresis. *)
Definition is_cased (c : N) : bool :=
  is_upper c || is_lower_paired c
  || (c =? 170) || (c =? 181) || (c =? 186) || (c =? 223) || (c =? 255).

Definition to_lower (c : N) : N := if is_upper c then c + 32 else c.

Definition to_title (c : N) : pystr :=
  if is_lower_paired c then [c - 32]
  else if c =? 255 then [376]
  else if c =? 181 then [924]
  else if c =? 223 then [83; 115]
  else [c].

Definition lower (s : pystr) : pystr := map to_lower s.

(** [str.title]: a character is title-cased when the one before it is not
    cased, lower-cased otherwise. *)
Fixpoint title_from (previous_is_cased : bool) (s : pystr) : pystr :=
  match s with
  | [] => []
  | c :: r =>
      (if previous_is_cased then [to_lower c] else to_title c)
        ++ title_from (is_cased c) r
  end.

Definition title (s : pystr) : pystr := title_from false s.

Definition decimal (z : Z) : pystr :=
  bytes_of (DecimalString.NilZero.string_of_int (Z.to_int z)).

Definition type_name (v : json) : pystr :=
  match v with
  | JNull => u "NoneType"
  | JBool _ => u "bool"
  | JInt _ => u "int"
  | JFloat _ => u "float"
  | JStr _ => u "str"
  | JArr _ => u "list"
  | JObj _ => u "dict"
  end.

Definition str (v : json) : pystr :=
  match v with
  | JNull => u "None"
  | JBool true => u "True"
  | JBool false => u "False"
  | JInt z => decimal z
  | JStr s => s
  | _ => u "..."
  end.

Definition message (e : exn) : pystr :=
  match e with
  | ValueError msg | RequestException msg | OtherException msg => msg
  | AttributeError obj attr =>
      u "'" ++ type_name obj ++ u "' object has no attribute '" ++ attr ++ u "'"
  | TypeError op obj =>
      if bool_decide (op = u "in")
      then u "argument of type '" ++ type_name obj ++ u "' is not iterable"
      else u "'" ++ type_name obj ++ u "' object does not support '" ++ op ++ u "'"
  | KeyError key => u "'" ++ key ++ u "'"
  | UnboundLocalError var =>
      u "cannot access local variable '" ++ var
        ++ u "' where it is not associated with a value"
  end.

Definition runtime : Runtime :=
  {| str_lower := lower; str_title := title; str_of := str;
     builtin_message := message |}.

End Latin1.

(** ** The collaborators: environment, Secret Manager, the data API *)

(** What [requests.post] hands back: [response.status_code],
    [response.text] and the outcome of [response.json()]. *)
Record http_reply := {
  status_code : Z;
  text : pystr;
  json_body : res json;
}.

Record world := {
  (** [os.environ.get(name)] *)
  environ : pystr -> option pystr;
  (** [secret_client.access_secret_version(request={"name": name})
      .payload.data.decode("UTF-8")], or the exception it raises *)
  access_secret_version : pystr -> res pystr;
  (** [requests.post(url, json=payload, headers=headers, timeout=t)] *)
  requests_post : pystr -> json -> gmap pystr pystr -> Z -> res http_reply;
}.

(** [a or b] on the results of [os.environ.get] *)
Definition or_else (a b : option pystr) : option pystr :=
  match a with
  | Some (_ :: _) => a
  | _ => b
  end.

Definition get_secret (w : world) (secret_name : pystr) : res pystr :=
  let project_id :=
    or_else (environ w (u "GCP_PROJECT"))
      (or_else (environ w (u "GOOGLE_CLOUD_PROJECT")) (environ w (u "PROJECT_ID"))) in
  match project_id with
  | Some (c :: r) =>
      let name := u "projects/" ++ (c :: r) ++ u "/secrets/" ++ secret_name
                    ++ u "/versions/latest" in
      payload ← access_secret_version w name;
      Ok (strip payload)
  | _ => Raise (ValueError (u "No project ID found in environment variables"))
  end.

Definition get_platform_base_url (w : world) : res pystr :=
  match environ w (u "STRATIX_PLATFORM_URL") with
  | Some (c :: r) => Ok (c :: r)
  | _ =>
      match get_secret w (u "stratix-platform-url") with
      | Ok base_url => Ok base_url
      | Raise _ =>
          Raise (ValueError (u "Platform URL not configured - add STRATIX_PLATFORM_URL environment variable or secret"))
      end
  end.

(** ** Local variables of the handler

    Every local but [tool_name_full] is bound on each path that reads it;
    [tool_name_full] is assigned in the tool-call branch only. *)

Record frame := { tool_name_full : option json }.

Definition M (A : Type) : Type := frame -> frame * res A.

Definition unit_M {A} (a : A) : M A := fun f => (f, Ok a).

Definition bind_M {A B} (m : M A) (k : A -> M B) : M B := fun f =>
  match m f with
  | (f', Ok a) => k a f'
  | (f', Raise e) => (f', Raise e)
  end.

Definition lift {A} (r : res A) : M A := fun f => (f, r).

Definition assign_tool_name_full (v : json) : M unit :=
  fun _ => ({| tool_name_full := Some v |}, Ok tt).

Definition read_tool_name_full : M json := fun f =>
  match tool_name_full f with
  | Some v => (f, Ok v)
  | None => (f, Raise (UnboundLocalError (u "tool_name_full")))
  end.

Notation "x ⇐ m ; k" := (bind_M m (fun x => k))
  (at level 20, m at level 100, k at level 200, only parsing).
Notation "' pat ⇐ m ; k" := (bind_M m (fun x => match x with pat => k end))
  (at level 20, pat pattern, m at level 100, k at level 200, only parsing).

(** ** Replies *)

Record http_response := { status : Z; body : json }.

(** [{"fulfillmentResponse": {"messages": [{"text": {"text": [t]}}]}}] *)
Definition fulfillment_response (t : json) : json :=
  JObj {[ u "fulfillmentResponse" :=
    JObj {[ u "messages" := JArr [ JObj {[ u "text" := JObj {[ u "text" := JArr [t] ]} ]} ] ]} ]}.

(** [{"tool_output": [{"tool": tool, "output": output}]}] *)
Definition tool_output (tool output : json) : json :=
  JObj {[ u "tool_output" := JArr [ JObj {[ u "tool" := tool; u "output" := output ]} ] ]}.

(** ** The handler *)

Section handler.
Context `{Runtime}.

(** [a in params or b in params] *)
Definition either_in (a b : pystr) (params : json) : res bool :=
  found ← contains a params;
  if found : bool then Ok true else contains b params.

(** The [if]/[elif] chain on [params] that the handler runs twice, with
    the same six tests and the same dict literals; the two copies differ
    in the final [else] only, passed here as [otherwise]. The result is
    the pair [(action, supabase_params)]. *)
Definition map_parameters (params : json) (otherwise : res (pystr * json))
    : res (pystr * json) :=
  c1 ← either_in (u "nombre_iniciativa") (u "initiative_id") params;
  if c1 : bool then
    nombre_iniciativa ← get params (u "nombre_iniciativa") JNull;
    initiative_id ← get params (u "initiative_id") JNull;
    Ok (u "get_initiative_status",
        JObj {[ u "nombre_iniciativa" := nombre_iniciativa;
                u "initiative_id" := initiative_id ]})
  else
  c2 ← either_in (u "nombre_area") (u "area_id") params;
  if c2 : bool then
    nombre_area ← get params (u "nombre_area") JNull;
    area_id ← get params (u "area_id") JNull;
    Ok (u "get_area_kpis",
        JObj {[ u "nombre_area" := nombre_area; u "area_id" := area_id ]})
  else
  c3 ← contains (u "user_id") params;
  if c3 : bool then
    user_id ← get params (u "user_id") JNull;
    limit ← get params (u "limit") (JInt 10);
    Ok (u "get_user_initiatives",
        JObj {[ u "user_id" := user_id; u "limit" := limit ]})
  else
  c4 ← contains (u "query") params;
  if c4 : bool then
    query ← get params (u "query") JNull;
    limit ← get params (u "limit") (JInt 20);
    Ok (u "search_initiatives",
        JObj {[ u "query" := query; u "limit" := limit ]})
  else
  a5 ← get params (u "action") JNull;
  if eq_str a5 (u "company_overview") then
    Ok (u "get_company_overview", JObj ∅)
  else
  a6 ← get params (u "action") JNull;
  if eq_str a6 (u "suggestions") then
    area_id ← get params (u "area_id") JNull;
    user_role ← get params (u "user_role") JNull;
    Ok (u "get_initiative_suggestions",
        JObj {[ u "area_id" := area_id; u "user_role" := user_role ]})
  else otherwise.

(** Lines 166-201, the tool-call branch: no match raises. *)
Definition map_tool_parameters (params : json) : res (pystr * json) :=
  map_parameters params
    (Raise (ValueError
       (u "No valid action found for tool parameters: " ++ str_of params))).

(** Lines 219-255, run on every request after the credentials are read:
    no match falls back to the company overview. *)
Definition map_parameters_again (params : json) : res (pystr * json) :=
  map_parameters params (Ok (u "get_company_overview", JObj ∅)).

(** [{key: name} if name else {}] *)
Definition name_param (key : pystr) (name : json) : json :=
  if truthy name then JObj {[ key := name ]} else JObj ∅.

(** [request_json.get('fulfillmentInfo', {}).get('tag', '')] *)
Definition webhook_tag (request_json : json) : res json :=
  fulfillment_info ← get request_json (u "fulfillmentInfo") (JObj ∅);
  get fulfillment_info (u "tag") (JStr []).

(** [request_json.get('sessionInfo', {}).get('parameters', {})] *)
Definition session_parameters (request_json : json) : res json :=
  session_info ← get request_json (u "sessionInfo") (JObj ∅);
  get session_info (u "parameters") (JObj ∅).

(** Lines 122-154, the webhook branch: [params] (the session parameters)
    and the pair [(action, supabase_params)] chosen by the tag. *)
Definition map_webhook_tag (request_json : json)
    : res (json * (pystr * json)) :=
  tag ← webhook_tag request_json;
  params ← session_parameters request_json;
  if eq_str tag (u "company_overview") then
    Ok (params, (u "get_company_overview", JObj ∅))
  else if eq_str tag (u "initiative_status") then
    user_text ← get request_json (u "text") (JStr []);
    nombre_iniciativa ← extract_initiative_name_from_text user_text;
    Ok (params, (u "get_initiative_status",
                 name_param (u "nombre_iniciativa") nombre_iniciativa))
  else if eq_str tag (u "area_kpis") then
    user_text ← get request_json (u "text") (JStr []);
    nombre_area ← extract_area_name_from_text user_text;
    Ok (params, (u "get_area_kpis", name_param (u "nombre_area") nombre_area))
  else Raise (ValueError (u "Unsupported tag: " ++ str_of tag)).

(** The text after the last [/]: [s.split('/')[-1]]. *)
Fixpoint last_segment (acc s : pystr) : pystr :=
  match s with
  | [] => rev acc
  | c :: r => if c =? 47 then last_segment [] r else last_segment (c :: acc) r
  end.

(** [tool_name_full.split('/')[-1] if tool_name_full else 'unknown'];
    the name itself only reaches the log. *)
Definition tool_name_of (tool_name_full : json) : res pystr :=
  if truthy tool_name_full then
    match tool_name_full with
    | JStr s => Ok (last_segment [] s)
    | _ => Raise (AttributeError tool_name_full (u "split"))
    end
  else Ok (u "unknown").

(** Lines 158-201, the tool-call branch. *)
Definition map_tool_call (request_json : json) : M (json * (pystr * json)) :=
  t ⇐ lift (get request_json (u "tool") (JStr []));
  _ ⇐ assign_tool_name_full t;
  tool_name ⇐ lift (tool_name_of t);
  params ⇐ lift (get request_json (u "tool_parameters") (JObj ∅));
  first ⇐ lift (map_tool_parameters params);
  unit_M (params, first).

(** The outbound request, with the action it carries. *)
Record call := {
  url : pystr;
  payload : gmap pystr json;
  headers : gmap pystr pystr;
  timeout : Z;
  action : pystr;
}.

(** Steps 1 to 4 up to the call of [requests.post]: either the handler
    returns early, or it has a request to send. The pair chosen in step 1
    is overwritten in step 3 before anything reads it. *)
Definition prepare (w : world) (request_json : json)
    : M (http_response + call) :=
  if negb (truthy request_json) then
    unit_M (inl {| status := 400;
                   body := fulfillment_response
                             (JStr (u "Error: No se recibieron datos")) |})
  else
  is_webhook ⇐ lift (contains (u "fulfillmentInfo") request_json);
  '(params, _) ⇐ (if is_webhook : bool
                  then lift (map_webhook_tag request_json)
                  else map_tool_call request_json);
  supabase_url ⇐ lift (get_secret w (u "supabase-edge-function-url"));
  supabase_key ⇐ lift (get_secret w (u "supabase-anon-key"));
  if negb (truthy_str supabase_url) || negb (truthy_str supabase_key) then
    t ⇐ read_tool_name_full;
    unit_M (inl {| status := 500;
                   body := tool_output t
                     (JObj {[ u "error" :=
                        JStr (u "Unable to retrieve Supabase credentials") ]}) |})
  else
  '(action, supabase_params) ⇐ lift (map_parameters_again params);
  let headers : gmap pystr pystr :=
    {[ u "Content-Type" := u "application/json";
       u "Authorization" := u "Bearer " ++ supabase_key;
       u "apikey" := supabase_key ]} in
  let payload : gmap pystr json :=
    {[ u "action" := JStr action; u "params" := supabase_params ]} in
  has_token ⇐ lift (contains (u "user_token") params);
  payload ⇐ (if has_token : bool
             then user_token ⇐ lift (getitem params (u "user_token"));
                  unit_M (<[u "user_token" := user_token]> payload)
             else unit_M payload);
  unit_M (inr {| url := supabase_url; payload := payload; headers := headers;
                 timeout := 30; action := action |}).

(** The body of the inner [try] (lines 290-306). [get_platform_base_url]
    is its first statement and the only one that raises [ValueError];
    everything after it can fail with [AttributeError] alone. *)
Definition enrich_body (w : world) (action : pystr) (output_data : json)
    : res json :=
  platform_url ← get_platform_base_url w;
  if bool_decide (action = u "get_initiative_status") && truthy output_data then
    output_data ←
      (if truthy_str platform_url then
         found ← get output_data (u "id") JNull;
         if truthy found then
           ident ← get output_data (u "id") JNull;
           setitem output_data (u "link")
             (JStr (platform_url ++ u "/initiatives/" ++ str_of ident))
         else Ok output_data
       else Ok output_data);
    title ← get output_data (u "title") (JStr []);
    progress ← get output_data (u "progress") (JInt 0);
    state ← get output_data (u "status") (JStr []);
    setitem output_data (u "resumen")
      (JStr (u "La iniciativa '" ++ str_of title ++ u "' tiene un progreso del "
             ++ str_of progress ++ u "% y está en estado '" ++ str_of state
             ++ u "'."))
  else if bool_decide (action = u "get_area_kpis") && truthy output_data then
    output_data ←
      (if truthy_str platform_url then
         found ← get output_data (u "area_id") JNull;
         if truthy found then
           area_id ← get output_data (u "area_id") JNull;
           setitem output_data (u "link")
             (JStr (platform_url ++ u "/areas/" ++ str_of area_id))
         else Ok output_data
       else Ok output_data);
    area_name ← get output_data (u "area_name") (JStr []);
    total ← get output_data (u "total_initiatives") (JInt 0);
    avg ← get output_data (u "avg_progress") (JInt 0);
    setitem output_data (u "resumen")
      (JStr (u "El área '" ++ str_of area_name ++ u "' tiene " ++ str_of total
             ++ u " iniciativas con un progreso promedio del " ++ str_of avg
             ++ u "%."))
  else if bool_decide (action = u "get_company_overview") && truthy output_data then
    metrics ← get output_data (u "company_metrics") (JObj ∅);
    total ← get metrics (u "total_initiatives") (JInt 0);
    completed ← get metrics (u "completed_initiatives") (JInt 0);
    overall ← get metrics (u "overall_progress") (JInt 0);
    output_data ← setitem output_data (u "resumen")
      (JStr (u "La empresa tiene " ++ str_of total ++ u " iniciativas, "
             ++ str_of completed ++ u " completadas y un progreso general del "
             ++ str_of overall ++ u "%."));
    if truthy_str platform_url then
      setitem output_data (u "link") (JStr (platform_url ++ u "/dashboard"))
    else Ok output_data
  else Ok output_data.

(** The inner [try] with its [except ValueError]: the handler logs and
    goes on with [output_data] as the data API returned it. *)
Definition enrich (w : world) (action : pystr) (output_data : json)
    : res json :=
  match enrich_body w action output_data with
  | Raise (ValueError _) => Ok output_data
  | r => r
  end.

(** Lines 283-317: [output_data] from the reply of the data API. *)
Definition read_reply (w : world) (action : pystr) (response : http_reply)
    : res json :=
  if (status_code response =? 200)%Z then
    result ← json_body response;
    success ← get result (u "success") JNull;
    if truthy success then
      output_data ← get result (u "data") (JObj ∅);
      enrich w action output_data
    else
      error ← get result (u "error") (JStr (u "Unknown error from Supabase"));
      Ok (JObj {[ u "error" := error ]})
  else
    Ok (JObj {[ u "error" :=
      JStr (u "Supabase request failed: " ++ str_of (JInt (status_code response))
            ++ u " - " ++ text response) ]}).

(** The outer [try] block: an early return, or [output_data]. *)
Definition try_block (w : world) (request_json : json)
    : M (http_response + json) :=
  p ⇐ prepare w request_json;
  match p with
  | inl early => unit_M (inl early)
  | inr c =>
      response ⇐ lift (requests_post w (url c) (JObj (payload c)) (headers c) (timeout c));
      output_data ⇐ lift (read_reply w (action c) response);
      unit_M (inr output_data)
  end.

(** The two [except] clauses of the outer [try]. *)
Definition error_message (e : exn) : pystr :=
  if is_request_exception e
  then u "Network error calling Supabase: " ++ str_exn e
  else u "Internal error: " ++ str_exn e.

Definition error_data (e : exn) : json :=
  JObj {[ u "error" := JStr (error_message e) ]}.

Definition try_except (w : world) (request_json : json) (f : frame)
    : frame * (http_response + json) :=
  match try_block w request_json f with
  | (f', Ok r) => (f', r)
  | (f', Raise e) => (f', inr (error_data e))
  end.

(** Step 5 (lines 326-352), outside the [try]. *)
Definition respond (request_json output_data : json) : M http_response :=
  is_webhook ⇐ lift (contains (u "fulfillmentInfo") request_json);
  if is_webhook : bool then
    response_text ⇐ lift (get output_data (u "resumen")
                            (JStr (u "Datos obtenidos correctamente de Stratix.")));
    has_error ⇐ lift (contains (u "error") output_data);
    response_text ⇐ (if has_error : bool
                     then error ⇐ lift (getitem output_data (u "error"));
                          unit_M (JStr (u "Lo siento, hubo un error: " ++ str_of error))
                     else unit_M response_text);
    unit_M {| status := 200; body := fulfillment_response response_text |}
  else
    t ⇐ read_tool_name_full;
    unit_M {| status := 200; body := tool_output t output_data |}.

(** What a call of the endpoint comes to: a response, or an exception
    that leaves the function (the framework then answers on its own). *)
Inductive outcome :=
| Responds (r : http_response)
| Escapes (e : exn).

Definition bot_stratix_backend_generative (w : world) (request_json : json)
    : outcome :=
  match try_except w request_json {| tool_name_full := None |} with
  | (_, inl early) => Responds early
  | (f, inr output_data) =>
      match respond request_json output_data f with
      | (_, Ok r) => Responds r
      | (_, Raise e) => Escapes e
      end
  end.

(** The request handed to [requests.post], if the handler gets that far. *)
Definition outbound_call (w : world) (request_json : json) : option call :=
  match prepare w request_json {| tool_name_full := None |} with
  | (_, Ok (inr c)) => Some c
  | _ => None
  end.

End handler.

(** ** Vocabulary of the specification *)

(** A WebhookCall: a JSON object with the key [fulfillmentInfo]. *)
Definition is_webhook_call (request_json : json) : Prop :=
  ∃ m, request_json = JObj m ∧ is_Some (m !! u "fulfillmentInfo").

(** The tags of the webhook table. *)
Definition supported_tag (tag : json) : bool :=
  eq_str tag (u "company_overview") || eq_str tag (u "initiative_status")
  || eq_str tag (u "area_kpis").

(** The closed set of actions of the data API. *)
Definition action_kinds : list pystr :=
  [ u "get_company_overview"; u "get_initiative_status"; u "get_area_kpis";
    u "get_user_initiatives"; u "search_initiatives";
    u "get_initiative_suggestions" ].

(** The top-level [params] of a request: the session parameters of a
    webhook call, the [tool_parameters] of a tool call. *)
Definition top_level_params (request_json : json) : res json :=
  is_webhook ← contains (u "fulfillmentInfo") request_json;
  if is_webhook : bool
  then session_parameters request_json
  else get request_json (u "tool_parameters") (JObj ∅).

(** A 4xx answer. *)
Definition client_error (o : outcome) : Prop :=
  ∃ r, o = Responds r ∧ (400 ≤ status r < 500)%Z.

(** The call to the data API fails: [requests.post] raises a
    [RequestException] (a network error), or the reply has a status other
    than 200. [msg] is the message the handler files under [error]. *)
Inductive downstream_failure `{Runtime} : res http_reply → pystr → Prop :=
| network_error msg :
    downstream_failure (Raise (RequestException msg))
      (u "Network error calling Supabase: " ++ msg)
| http_error reply :
    status_code reply ≠ 200%Z →
    downstream_failure (Ok reply)
      (u "Supabase request failed: " ++ str_of (JInt (status_code reply))
       ++ u " - " ++ text reply).

(** The tool-call mapper as section 4.3 of the specification words it: a
    fixed list of predicates, each with the request it resolves to, the
    first predicate that holds deciding. *)
Module Spec.

Definition has (k : pystr) (m : gmap pystr json) : bool :=
  bool_decide (is_Some (m !! k)).

(** the value under [k], null when absent *)
Definition value (k : pystr) (m : gmap pystr json) : json :=
  default JNull (m !! k).

Definition value_or (k : pystr) (d : json) (m : gmap pystr json) : json :=
  default d (m !! k).

Record rule := {
  applies : gmap pystr json -> bool;
  resolves : gmap pystr json -> pystr * json;
}.

Definition precedence : list rule :=
  [ {| applies m := has (u "nombre_iniciativa") m || has (u "initiative_id") m;
       resolves m := (u "get_initiative_status",
                      JObj {[ u "nombre_iniciativa" := value (u "nombre_iniciativa") m;
                              u "initiative_id" := value (u "initiative_id") m ]}) |};
    {| applies m := has (u "nombre_area") m || has (u "area_id") m;
       resolves m := (u "get_area_kpis",
                      JObj {[ u "nombre_area" := value (u "nombre_area") m;
                              u "area_id" := value (u "area_id") m ]}) |};
    {| applies m := has (u "user_id") m;
       resolves m := (u "get_user_initiatives",
                      JObj {[ u "user_id" := value (u "user_id") m;
                              u "limit" := value_or (u "limit") (JInt 10) m ]}) |};
    {| applies m := has (u "query") m;
       resolves m := (u "search_initiatives",
                      JObj {[ u "query" := value (u "query") m;
                              u "limit" := value_or (u "limit") (JInt 20) m ]}) |};
    {| applies m := eq_str (value (u "action") m) (u "company_overview");
       resolves m := (u "get_company_overview", JObj ∅) |};
    {| applies m := eq_str (value (u "action") m) (u "suggestions");
       resolves m := (u "get_initiative_suggestions",
                      JObj {[ u "area_id" := value (u "area_id") m;
                              u "user_role" := value (u "user_role") m ]}) |} ].

Fixpoint first_match (rules : list rule) (m : gmap pystr json)
    : option (pystr * json) :=
  match rules with
  | [] => None
  | r :: rest => if applies r m then Some (resolves r m) else first_match rest m
  end.

(** No predicate of the list holds. *)
Definition no_match (m : gmap pystr json) : Prop :=
  Forall (fun r => applies r m = false) precedence.


End Spec.



(** * Properties *)

(** ** Example collaborators *)

Module Examples.

(** Project [demo] holds the two Supabase credentials; the platform URL is
    not in the environment, and is kept as a secret only when [platform]
    gives its stored text. *)
Definition secrets (platform : option pystr) (name : pystr) : res pystr :=
  if bool_decide (name = u "projects/demo/secrets/supabase-edge-function-url/versions/latest")
  then Ok (u "https://db.example/functions/v1/stratix")
  else if bool_decide (name = u "projects/demo/secrets/supabase-anon-key/versions/latest")
  then Ok (u "anon-key")
  else if bool_decide (name = u "projects/demo/secrets/stratix-platform-url/versions/latest")
  then match platform with
       | Some stored => Ok stored
       | None => Raise (OtherException (u "404 Secret not found"))
       end
  else Raise (OtherException (u "404 Secret not found")).

Definition env (name : pystr) : option pystr :=
  if bool_decide (name = u "GCP_PROJECT") then Some (u "demo") else None.

Definition configured : option pystr := Some (u "https://app.example").

(** A world whose data API answers every request with [reply]. *)
Definition world_with (platform : option pystr) (reply : res http_reply) : world :=
  {| environ := env;
     access_secret_version := secrets platform;
     requests_post := fun _ _ _ _ => reply |}.

(** HTTP 200 with [{"success": true, "data": data}] *)
Definition success (data : json) : res http_reply :=
  Ok {| status_code := 200; text := [];
        json_body := Ok (JObj {[ u "success" := JBool true; u "data" := data ]}) |}.

(** [{"fulfillmentInfo": {"tag": tag}, "sessionInfo": {"parameters":
    params}, "text": text}] *)
Definition webhook (tag : pystr) (params : gmap pystr json) (text : pystr) : json :=
  JObj {[ u "fulfillmentInfo" := JObj {[ u "tag" := JStr tag ]};
          u "sessionInfo" := JObj {[ u "parameters" := JObj params ]};
          u "text" := JStr text ]}.

(** [{"tool": tool, "tool_parameters": params}] *)
Definition tool_call (tool : pystr) (params : gmap pystr json) : json :=
  JObj {[ u "tool" := JStr tool; u "tool_parameters" := JObj params ]}.

(** What the data API returns for an initiative. *)
Definition initiative_data : gmap pystr json :=
  {[ u "id" := JInt 7; u "title" := JStr (u "Migración de Datos");
     u "progress" := JInt 40; u "status" := JStr (u "in_progress") ]}.

(** The request sent when the second mapper falls back to the company
    overview. *)
Definition overview_call : call :=
  {| url := u "https://db.example/functions/v1/stratix";
     payload := {[ u "action" := JStr (u "get_company_overview");
                   u "params" := JObj ∅ ]};
     headers := {[ u "Content-Type" := u "application/json";
                   u "Authorization" := u "Bearer anon-key";
                   u "apikey" := u "anon-key" ]};
     timeout := 30;
     action := u "get_company_overview" |}.

(** A data API that is down: 503 with a plain-text body. *)
Definition unavailable : res http_reply :=
  Ok {| status_code := 503; text := u "Service Unavailable";
        json_body := Raise (RequestException (u "Expecting value")) |}.

End Examples.

(** ** The rest of the module *)

(** [health_check]: the same answer to every request. *)
Definition health_check (request : json) : http_response :=
  {| status := 200;
     body := JObj {[ u "status" := JStr (u "healthy");
                     u "service" := JStr (u "bot-stratix-backend-generative") ]} |}.

(** A ToolCall: a JSON object, not empty, without the key
    [fulfillmentInfo]. *)
Definition is_tool_call (request_json : json) : Prop :=
  ∃ m, request_json = JObj m ∧ m ≠ ∅ ∧ m !! u "fulfillmentInfo" = None.

(** An environment variable that is missing or empty: [os.environ.get]
    gives a falsy value. *)
Definition unset (value : option pystr) : Prop :=
  value = None ∨ value = Some [].

(** No whitespace at either end. *)
Definition trimmed (s : pystr) : Prop :=
  (∀ c r, s = c :: r → isspace c = false) ∧
  (∀ c r, s = r ++ [c] → isspace c = false).

(** Further collaborators for the examples. *)
Module Cases.

(** Nothing configured: no environment, no secrets, no network. *)
Definition bare_world : world :=
  {| environ := fun _ => None;
     access_secret_version := fun _ => Raise (OtherException (u "403 Permission denied"));
     requests_post := fun _ _ _ _ => Raise (RequestException (u "Connection refused")) |}.

(** The project is named by [GOOGLE_CLOUD_PROJECT] while [GCP_PROJECT] is
    set but empty; the stored key has a trailing newline. *)
Definition second_variable_world : world :=
  {| environ := fun name =>
       if bool_decide (name = u "GCP_PROJECT") then Some []
       else if bool_decide (name = u "GOOGLE_CLOUD_PROJECT") then Some (u "demo")
       else None;
     access_secret_version := fun name =>
       if bool_decide (name = u "projects/demo/secrets/supabase-anon-key/versions/latest")
       then Ok [97; 110; 111; 110; 45; 107; 101; 121; 10]
       else Raise (OtherException (u "404 Secret not found"));
     requests_post := fun _ _ _ _ => Raise (RequestException (u "Connection refused")) |}.

(** Both credentials can be read, but the stored key is blank. *)
Definition blank_key_world : world :=
  {| environ := Examples.env;
     access_secret_version := fun name =>
       if bool_decide (name = u "projects/demo/secrets/supabase-edge-function-url/versions/latest")
       then Ok (u "https://db.example/functions/v1/stratix")
       else if bool_decide (name = u "projects/demo/secrets/supabase-anon-key/versions/latest")
       then Ok (u "   ")
       else Raise (OtherException (u "404 Secret not found"));
     requests_post := fun _ _ _ _ => Raise (RequestException (u "Connection refused")) |}.

(** HTTP 200 with [{"success": false, "error": "Initiative not found"}] *)
Definition refused : res http_reply :=
  Ok {| status_code := 200; text := [];
        json_body := Ok (JObj {[ u "success" := JBool false;
                                 u "error" := JStr (u "Initiative not found") ]}) |}.

(** The request sent for [{"query": "revenue", "user_token": "jwt"}]. *)
Definition search_call : call :=
  {| url := u "https://db.example/functions/v1/stratix";
     payload := {[ u "action" := JStr (u "search_initiatives");
                   u "params" := JObj {[ u "query" := JStr (u "revenue");
                                         u "limit" := JInt 20 ]};
                   u "user_token" := JStr (u "jwt") ]};
     headers := {[ u "Content-Type" := u "application/json";
                   u "Authorization" := u "Bearer anon-key";
                   u "apikey" := u "anon-key" ]};
     timeout := 30;
     action := u "search_initiatives" |}.

End Cases.

(** ** The parameter mapper *)

Ltac step_res := cbn [mbind res_bind orb andb negb] in *.

(** Case analysis on the outcome of the first computation of a bind. *)
Ltac bind_cases :=
  match goal with
  | H : context [mbind _ ?x] |- _ => destruct x eqn:?; step_res
  | |- context [mbind _ ?x] => destruct x eqn:?; step_res
  end.

Section mapper.
Context `{Runtime}.

(** On a dict, the [if]/[elif] chain is the first-match reading of the
    predicate list. *)
Lemma map_parameters_first_match (m : gmap pystr json) otherwise :
  map_parameters (JObj m) otherwise =
  match Spec.first_match Spec.precedence m with
  | Some r => Ok r
  | None => otherwise
  end.
Proof.
  unfold map_parameters, either_in, contains, get, Spec.precedence,
    Spec.first_match, Spec.applies, Spec.resolves, Spec.has, Spec.value,
    Spec.value_or.
  step_res.
  repeat (case_bool_decide; step_res); try reflexivity.
  all: repeat (case_match; step_res); reflexivity.
Qed.

(** On anything but a dict, one of the [in] tests or the first [get]
    raises. *)
Lemma map_parameters_dict params otherwise r :
  map_parameters params otherwise = Ok r → ∃ m, params = JObj m.
Proof.
  destruct params; try (by eauto); intros Hr; exfalso; revert Hr;
    unfold map_parameters, either_in, contains, get; step_res;
    repeat (case_match; step_res); discriminate.
Qed.

Lemma first_match_action m a sp :
  Spec.first_match Spec.precedence m = Some (a, sp) → a ∈ action_kinds.
Proof.
  unfold Spec.precedence, Spec.first_match, Spec.applies, Spec.resolves,
    action_kinds.
  repeat case_match; intros [= <- _]; compute_done.
Qed.

End mapper.

(** ** The handler, stage by stage *)

Ltac unfold_M :=
  unfold bind_M, lift, unit_M, assign_tool_name_full, read_tool_name_full in *.

Section stages.
Context `{Runtime}.

Lemma webhook_call_truthy request_json :
  is_webhook_call request_json →
  truthy request_json = true ∧
  contains (u "fulfillmentInfo") request_json = Ok true.
Proof.
  intros (m & -> & Hfi). cbn [truthy contains]. split.
  - case_bool_decide as Hm; [|reflexivity].
    subst m. rewrite lookup_empty in Hfi. by destruct Hfi.
  - by rewrite bool_decide_eq_true_2.
Qed.

Lemma map_webhook_tag_params request_json params first :
  map_webhook_tag request_json = Ok (params, first) →
  session_parameters request_json = Ok params.
Proof.
  unfold map_webhook_tag.
  destruct (webhook_tag request_json) as [tag|]; step_res; [|discriminate].
  destruct (session_parameters request_json) as [p|]; step_res; [|discriminate].
  intros Hm.
  repeat (first [case_match | bind_cases]; step_res; simplify_eq); done.
Qed.

(** The webhook branch never binds [tool_name_full]. *)
Lemma prepare_webhook_frame w request_json f r :
  is_webhook_call request_json →
  prepare w request_json {| tool_name_full := None |} = (f, r) →
  f = {| tool_name_full := None |}.
Proof.
  intros [Ht Hc]%webhook_call_truthy. unfold prepare. rewrite Ht. cbn [negb].
  unfold_M. rewrite Hc. intros Hp.
  repeat (case_match; simplify_eq); done.
Qed.

(** A webhook call never takes an early return: the body is not empty,
    and the branch for missing credentials reads [tool_name_full], which
    is unbound. *)
Lemma prepare_webhook_no_early_return w request_json f early :
  is_webhook_call request_json →
  prepare w request_json {| tool_name_full := None |} ≠ (f, Ok (inl early)).
Proof.
  intros [Ht Hc]%webhook_call_truthy. unfold prepare. rewrite Ht. cbn [negb].
  unfold_M. rewrite Hc. intros Hp.
  repeat (case_match; simplify_eq); done.
Qed.

(** What the handler sends when it gets as far as [requests.post]. *)
Lemma prepare_call w request_json f c :
  prepare w request_json {| tool_name_full := None |} = (f, Ok (inr c)) →
  ∃ m supabase_key sp,
    top_level_params request_json = Ok (JObj m) ∧
    get_secret w (u "supabase-edge-function-url") = Ok (url c) ∧
    get_secret w (u "supabase-anon-key") = Ok supabase_key ∧
    map_parameters_again (JObj m) = Ok (action c, sp) ∧
    payload c =
      (let p : gmap pystr json :=
         {[ u "action" := JStr (action c); u "params" := sp ]} in
       match m !! u "user_token" with
       | Some user_token => <[u "user_token" := user_token]> p
       | None => p
       end).
Proof.
  unfold prepare, top_level_params, map_tool_call. unfold_M. intros Hp.
  destruct (negb (truthy request_json)); [discriminate|].
  destruct (contains (u "fulfillmentInfo") request_json) as [[]|];
    step_res; [| |discriminate].
  - destruct (map_webhook_tag request_json) as [[params first]|] eqn:Hw;
      [|discriminate].
    apply map_webhook_tag_params in Hw. rewrite Hw.
    repeat (case_match; simplify_eq).
    all: match goal with
         | Hm : map_parameters_again _ = Ok _ |- _ =>
             destruct (map_parameters_dict _ _ _ Hm) as [m ->]
         end.
    all: eexists m, _, _; split_and!; try done.
    all: cbn [contains getitem] in *; repeat (case_match; simplify_eq); try done.
    all: by case_bool_decide as Hs; [destruct Hs|].
  - repeat (case_match; simplify_eq).
    all: match goal with
         | Hm : map_parameters_again _ = Ok _ |- _ =>
             destruct (map_parameters_dict _ _ _ Hm) as [m ->]
         end.
    all: eexists m, _, _; split_and!; try done.
    all: cbn [contains getitem] in *; repeat (case_match; simplify_eq); try done.
    all: by case_bool_decide as Hs; [destruct Hs|].
Qed.

End stages.

(** Distinct string literals. *)
Ltac key_ne :=
  let E := fresh in intros E; vm_compute in E; discriminate E.

Section replies.
Context `{Runtime}.

Lemma outbound_call_prepare w request_json c :
  outbound_call w request_json = Some c →
  ∃ f, prepare w request_json {| tool_name_full := None |} = (f, Ok (inr c)).
Proof.
  unfold outbound_call. intros Hc.
  repeat (case_match; simplify_eq). eauto.
Qed.

(** The [action] and [params] fields of the payload, whether or not a
    [user_token] was added. *)
Lemma payload_fields (m : gmap pystr json) (a : pystr) (sp : json) :
  let p : gmap pystr json := {[ u "action" := JStr a; u "params" := sp ]} in
  let sent := match m !! u "user_token" with
              | Some user_token => <[u "user_token" := user_token]> p
              | None => p
              end in
  sent !! u "action" = Some (JStr a) ∧ sent !! u "params" = Some sp.
Proof.
  assert (u "user_token" ≠ u "action") by key_ne.
  assert (u "user_token" ≠ u "params") by key_ne.
  assert (u "action" ≠ u "params") by key_ne.
  cbv zeta. destruct (m !! u "user_token"); by simplify_map_eq.
Qed.

(** Step 5 on a webhook call whose [output_data] is a dict. *)
Lemma respond_webhook (request_json : json) (od : gmap pystr json) (f : frame) :
  is_webhook_call request_json →
  respond request_json (JObj od) f =
    (f, Ok {| status := 200;
              body := fulfillment_response
                match od !! u "error" with
                | Some error => JStr (u "Lo siento, hubo un error: " ++ str_of error)
                | None =>
                    default (JStr (u "Datos obtenidos correctamente de Stratix."))
                            (od !! u "resumen")
                end |}).
Proof.
  intros [_ Hc]%webhook_call_truthy. unfold respond. unfold_M.
  rewrite Hc. cbn [get contains getitem].
  destruct (od !! u "error") as [error|] eqn:He.
  - by rewrite bool_decide_eq_true_2.
  - by rewrite bool_decide_eq_false_2; [|intros []].
Qed.

(** Any exception raised inside the [try] of a webhook call becomes a
    200 reply that carries its message. *)
Lemma webhook_exception_reply w request_json f e :
  is_webhook_call request_json →
  try_block w request_json {| tool_name_full := None |} = (f, Raise e) →
  bot_stratix_backend_generative w request_json =
    Responds {| status := 200;
                body := fulfillment_response
                  (JStr (u "Lo siento, hubo un error: "
                         ++ str_of (JStr (error_message e)))) |}.
Proof.
  intros Hw Ht. unfold bot_stratix_backend_generative, try_except.
  rewrite Ht. unfold error_data. rewrite respond_webhook by done.
  by rewrite lookup_singleton_eq.
Qed.

(** A webhook call is never answered by one of the early returns. *)
Lemma try_block_webhook_no_early_return w request_json f early :
  is_webhook_call request_json →
  try_block w request_json {| tool_name_full := None |} ≠ (f, Ok (inl early)).
Proof.
  intros Hw. unfold try_block. unfold_M. intros Ht.
  destruct (prepare _ _ _) as [f' [[r|c]|e]] eqn:Hp; simplify_eq.
  - by eapply prepare_webhook_no_early_return.
  - repeat (case_match; simplify_eq).
Qed.

End replies.

(** ** The tool-call mapper: precedence and round trip *)

Section precedence.
Context `{Runtime}.





(** C5. On every tool-call parameter dict, both copies of the mapper are
    the first-match-wins reading of the predicate list in the order
    nombre_iniciativa/initiative_id, nombre_area/area_id, user_id, query,
    action == company_overview, action == suggestions (the first copy
    raising, the second falling back, when nothing matches); and a dict
    that holds both nombre_iniciativa and user_id resolves to
    get_initiative_status, which is not get_user_initiatives. *)
Theorem tool_mapper_first_match_wins (m : gmap pystr json) (x y : json) :
  map_tool_parameters (JObj m) =
    match Spec.first_match Spec.precedence m with
    | Some r => Ok r
    | None =>
        Raise (ValueError (u "No valid action found for tool parameters: "
                           ++ str_of (JObj m)))
    end
  ∧ map_parameters_again (JObj m) =
      Ok (default (u "get_company_overview", JObj ∅)
                  (Spec.first_match Spec.precedence m))
  ∧ map_tool_parameters
      (JObj (<[u "nombre_iniciativa" := x]> (<[u "user_id" := y]> m))) =
      Ok (u "get_initiative_status",
          JObj {[ u "nombre_iniciativa" := x;
                  u "initiative_id" := default JNull (m !! u "initiative_id") ]})
  ∧ u "get_initiative_status" ≠ u "get_user_initiatives".
Proof.
  assert (u "nombre_iniciativa" ≠ u "initiative_id") by key_ne.
  assert (u "user_id" ≠ u "initiative_id") by key_ne.
  unfold map_tool_parameters, map_parameters_again.
  rewrite !map_parameters_first_match. split_and!.
  - reflexivity.
  - by destruct (Spec.first_match _ m).
  - unfold Spec.precedence, Spec.first_match, Spec.applies, Spec.resolves,
      Spec.has, Spec.value.
    rewrite lookup_insert_eq. rewrite bool_decide_eq_true_2 by eauto.
    cbn [orb default]. by rewrite !lookup_insert_ne by done.
  - key_ne.
Qed.

End precedence.

Section outbound.
Context `{Runtime}.


(** C8. Whenever the handler calls the data API, the [action] field of
    the payload is one of get_company_overview, get_initiative_status,
    get_area_kpis, get_user_initiatives, search_initiatives,
    get_initiative_suggestions. *)
Theorem outbound_action_in_closed_set (w : world) (request_json : json) (c : call) :
  outbound_call w request_json = Some c →
  ∃ a, payload c !! u "action" = Some (JStr a) ∧ a ∈ action_kinds.
Proof.
  intros [f Hp]%outbound_call_prepare.
  apply prepare_call in Hp as (m & key & sp & _ & _ & _ & Hm & ->).
  exists (action c). split; [apply payload_fields|].
  unfold map_parameters_again in Hm. rewrite map_parameters_first_match in Hm.
  destruct (Spec.first_match Spec.precedence m) as [[a' sp']|] eqn:Hf;
    injection Hm as <- _.
  - by eapply first_match_action.
  - compute_done.
Qed.

(** C2. Whatever the shape of the request, the action and params that
    reach the data API are those the second mapper computes from the
    top-level params (the session parameters of a webhook call, the
    tool parameters of a tool call): the pair chosen from the tag or by
    the first tool-call mapper plays no part. When no predicate matches,
    the request sent carries get_company_overview and empty params. *)
Theorem outbound_request_from_second_mapper (w : world) (request_json : json)
    (c : call) :
  outbound_call w request_json = Some c →
  ∃ m sp,
    top_level_params request_json = Ok (JObj m) ∧
    map_parameters_again (JObj m) = Ok (action c, sp) ∧
    payload c !! u "action" = Some (JStr (action c)) ∧
    payload c !! u "params" = Some sp ∧
    (Spec.no_match m → action c = u "get_company_overview" ∧ sp = JObj ∅).
Proof.
  intros [f Hp]%outbound_call_prepare.
  apply prepare_call in Hp as (m & key & sp & Ht & _ & _ & Hm & ->).
  exists m, sp. split_and!; try done; try apply payload_fields.
  intros Hno. unfold map_parameters_again in Hm.
  rewrite map_parameters_first_match in Hm.
  assert (Spec.first_match Spec.precedence m = None) as Hnone.
  { revert Hno. unfold Spec.no_match.
    generalize Spec.precedence as rules. induction rules as [|r rules IH].
    - reflexivity.
    - intros [Hr Hrest]%Forall_cons. cbn [Spec.first_match].
      rewrite Hr. by apply IH. }
  rewrite Hnone in Hm. by injection Hm as <- <-.
Qed.

End outbound.

(** ** Errors on the webhook path *)

Section webhook_errors.
Context `{Runtime}.

Lemma unsupported_tag_raises (request_json tag params : json) :
  webhook_tag request_json = Ok tag →
  session_parameters request_json = Ok params →
  supported_tag tag = false →
  map_webhook_tag request_json =
    Raise (ValueError (u "Unsupported tag: " ++ str_of tag)).
Proof.
  unfold map_webhook_tag, supported_tag. intros -> -> Hs. step_res.
  apply orb_false_elim in Hs as [[-> ->]%orb_false_elim ->]. reflexivity.
Qed.

(** An exception of the webhook branch is raised before the credentials
    are read. *)
Lemma prepare_webhook_raises (w : world) (request_json : json) (e : exn) :
  is_webhook_call request_json →
  map_webhook_tag request_json = Raise e →
  prepare w request_json {| tool_name_full := None |} =
    ({| tool_name_full := None |}, Raise e).
Proof.
  intros [Ht Hc]%webhook_call_truthy Hm. unfold prepare.
  rewrite Ht. cbn [negb]. unfold_M. by rewrite Hc, Hm.
Qed.

(** C1, as amended. For every WebhookCall whose tag is not one of
    company_overview, initiative_status, area_kpis, normalization fails
    with ValueError("Unsupported tag: ..."), nothing is sent to the data
    API (the action is not defaulted to the company overview), and the
    endpoint answers with HTTP status 200 and a webhook reply whose text
    carries the error. *)
Theorem unsupported_tag_reported_with_200 (w : world)
    (request_json tag params : json) :
  is_webhook_call request_json →
  webhook_tag request_json = Ok tag →
  session_parameters request_json = Ok params →
  supported_tag tag = false →
  map_webhook_tag request_json =
    Raise (ValueError (u "Unsupported tag: " ++ str_of tag))
  ∧ outbound_call w request_json = None
  ∧ bot_stratix_backend_generative w request_json =
      Responds {| status := 200;
                  body := fulfillment_response
                    (JStr (u "Lo siento, hubo un error: "
                           ++ str_of (JStr (u "Internal error: "
                                ++ (u "Unsupported tag: " ++ str_of tag))))) |}.
Proof.
  intros Hw Htag Hparams Hs.
  pose proof (unsupported_tag_raises _ _ _ Htag Hparams Hs) as Hm.
  pose proof (prepare_webhook_raises w _ _ Hw Hm) as Hp.
  split_and!; [done| |].
  - unfold outbound_call. by rewrite Hp.
  - rewrite (webhook_exception_reply w request_json
               {| tool_name_full := None |}
               (ValueError (u "Unsupported tag: " ++ str_of tag))).
    + unfold error_message. cbn [is_request_exception str_exn]. reflexivity.
    + done.
    + unfold try_block, bind_M. by rewrite Hp.
Qed.

(** C7. For every WebhookCall whose call to the data API fails, with a
    network error or with a status other than 200, the failure is
    caught, [output_data] becomes [{"error": message}], and the endpoint
    returns the webhook reply with HTTP status 200. *)
Theorem downstream_failure_reported_with_200 (w : world) (request_json : json)
    (c : call) (msg : pystr) :
  is_webhook_call request_json →
  outbound_call w request_json = Some c →
  downstream_failure
    (requests_post w (url c) (JObj (payload c)) (headers c) (timeout c)) msg →
  try_except w request_json {| tool_name_full := None |} =
    ({| tool_name_full := None |}, inr (JObj {[ u "error" := JStr msg ]}))
  ∧ bot_stratix_backend_generative w request_json =
      Responds {| status := 200;
                  body := fulfillment_response
                    (JStr (u "Lo siento, hubo un error: " ++ str_of (JStr msg))) |}.
Proof.
  intros Hw [f Hp]%outbound_call_prepare Hfail.
  pose proof (prepare_webhook_frame _ _ _ _ Hw Hp) as ->.
  assert (try_except w request_json {| tool_name_full := None |} =
          ({| tool_name_full := None |}, inr (JObj {[ u "error" := JStr msg ]})))
    as Ht.
  { unfold try_except, try_block, bind_M. rewrite Hp. unfold lift, unit_M.
    destruct (requests_post w _ _ _ _) as [reply|e];
      inversion Hfail as [msg' Hmsg|reply' Hstatus Hreply]; subst.
    - unfold read_reply. by rewrite (proj2 (Z.eqb_neq _ _) Hstatus).
    - reflexivity. }
  split; [done|].
  unfold bot_stratix_backend_generative. rewrite Ht.
  rewrite respond_webhook by done. by rewrite lookup_singleton_eq.
Qed.

(** What the webhook path does keep. Every response the handler itself
    returns to a WebhookCall has status 200. No early return is taken: the
    branch for missing credentials reads [tool_name_full], unbound on this
    path, and raises. Any exception raised inside the [try] block
    (unsupported tag, credential failure, downstream failure, that
    NameError) is turned into a 200 webhook reply with the message
    embedded, and a reply is produced whenever the [output_data] the block
    ends with is a JSON object. *)
Theorem webhook_answers_are_200 (w : world) (request_json : json) :
  is_webhook_call request_json →
  (∀ r, bot_stratix_backend_generative w request_json = Responds r →
        status r = 200%Z)
  ∧ (∀ f e,
       try_block w request_json {| tool_name_full := None |} = (f, Raise e) →
       bot_stratix_backend_generative w request_json =
         Responds {| status := 200;
                     body := fulfillment_response
                       (JStr (u "Lo siento, hubo un error: "
                              ++ str_of (JStr (error_message e)))) |})
  ∧ (∀ first supabase_url supabase_key,
       map_webhook_tag request_json = Ok first →
       get_secret w (u "supabase-edge-function-url") = Ok supabase_url →
       get_secret w (u "supabase-anon-key") = Ok supabase_key →
       truthy_str supabase_url = false ∨ truthy_str supabase_key = false →
       try_block w request_json {| tool_name_full := None |} =
         ({| tool_name_full := None |},
          Raise (UnboundLocalError (u "tool_name_full"))))
  ∧ (∀ f (od : gmap pystr json),
       try_except w request_json {| tool_name_full := None |} = (f, inr (JObj od)) →
       ∃ t, bot_stratix_backend_generative w request_json =
              Responds {| status := 200; body := fulfillment_response t |}).
Proof.
  intros Hw. split_and!.
  - intros r. unfold bot_stratix_backend_generative, try_except.
    destruct (try_block _ _ _) as [f [[early|od]|e]] eqn:Ht.
    + by apply try_block_webhook_no_early_return in Ht.
    + destruct od; try (unfold respond; unfold_M;
        rewrite (proj2 (webhook_call_truthy _ Hw)); discriminate).
      rewrite respond_webhook by done. by intros [= <-].
    + unfold error_data. rewrite respond_webhook by done. by intros [= <-].
  - intros f e. by apply webhook_exception_reply.
  - intros [params first] su sk Hm Hu Hk Hblank.
    destruct (webhook_call_truthy _ Hw) as [Ht Hc].
    unfold try_block, prepare. rewrite Ht. cbn [negb]. unfold_M.
    rewrite Hc, Hm, Hu, Hk.
    by destruct Hblank as [-> | ->]; rewrite ?orb_true_r.
  - intros f od Ht. unfold bot_stratix_backend_generative. rewrite Ht.
    rewrite respond_webhook by done. eauto.
Qed.

End webhook_errors.

(** ** Free-text extraction inside the webhook branch *)

Section extraction_in_webhook.
Context `{Runtime}.

Lemma map_webhook_tag_initiative_status (request_json params text name : json) :
  webhook_tag request_json = Ok (JStr (u "initiative_status")) →
  session_parameters request_json = Ok params →
  get request_json (u "text") (JStr []) = Ok text →
  extract_initiative_name_from_text text = Ok name →
  map_webhook_tag request_json =
    Ok (params, (u "get_initiative_status",
                 name_param (u "nombre_iniciativa") name)).
Proof.
  intros Htag Hparams Htext Hname. unfold map_webhook_tag.
  rewrite Htag, Hparams. step_res.
  replace (eq_str (JStr (u "initiative_status")) (u "company_overview"))
    with false by (vm_compute; reflexivity).
  replace (eq_str (JStr (u "initiative_status")) (u "initiative_status"))
    with true by (vm_compute; reflexivity).
  rewrite Htext. step_res. by rewrite Hname.
Qed.

(** C9. On the text "iniciativa  ?" the first pattern matches with a
    single space in its group (the greedy [\s+] gives one space back so
    that [[^?]+] has something to take), the group strips to the empty
    string, and the extractor returns that empty string, not None. The
    webhook branch then builds the same empty params as for an absent
    extraction: no nombre_iniciativa key. *)
Theorem whitespace_capture_gives_empty_name (request_json params : json) :
  str_lower (u "iniciativa  ?") = u "iniciativa  ?" →
  str_title [] = [] →
  webhook_tag request_json = Ok (JStr (u "initiative_status")) →
  session_parameters request_json = Ok params →
  get request_json (u "text") (JStr []) = Ok (JStr (u "iniciativa  ?")) →
  (∃ m, head initiative_patterns = Some m ∧
        Re.search m (u "iniciativa  ?") =
          Some {| Re.m_pos := 12; Re.m_rest := u "?"; Re.m_grp := Some (u " ") |})
  ∧ strip (u " ") = []
  ∧ extract_initiative_name_from_text (JStr (u "iniciativa  ?")) = Ok (JStr [])
  ∧ extract_initiative_name_from_text (JStr (u "iniciativa  ?")) ≠ Ok JNull
  ∧ map_webhook_tag request_json =
      Ok (params, (u "get_initiative_status", JObj ∅))
  ∧ name_param (u "nombre_iniciativa") (JStr []) =
      name_param (u "nombre_iniciativa") JNull.
Proof.
  intros Hlower Htitle Htag Hparams Htext.
  assert (extract_initiative_name_from_text (JStr (u "iniciativa  ?"))
          = Ok (JStr [])) as Hname.
  { unfold extract_initiative_name_from_text, lower_strip. rewrite Hlower.
    replace (strip (u "iniciativa  ?")) with (u "iniciativa  ?")
      by (vm_compute; reflexivity).
    step_res. unfold initiative_patterns. cbn [scan_patterns].
    match goal with
    | |- context [Re.search ?r ?s] =>
        replace (Re.search r s)
          with (Some {| Re.m_pos := 12; Re.m_rest := u "?";
                        Re.m_grp := Some (u " ") |})
          by (vm_compute; reflexivity)
    end.
    unfold group1_strip. cbn [Re.m_grp]. step_res.
    replace (Re.sub_anchored initiative_cleanup (strip (u " "))) with (@nil N)
      by (vm_compute; reflexivity).
    by rewrite Htitle. }
  split_and!.
  - eexists. split; [reflexivity|]. vm_compute. reflexivity.
  - vm_compute. reflexivity.
  - exact Hname.
  - rewrite Hname. discriminate.
  - by rewrite (map_webhook_tag_initiative_status _ _ _ _ Htag Hparams Htext Hname).
  - reflexivity.
Qed.

End extraction_in_webhook.

(** ** Enrichment without a platform URL *)

Section enrichment.
Context `{Runtime}.

(** When [get_platform_base_url] raises, the inner [try] is left at its
    first statement: nothing is added to [output_data]. *)
Lemma enrich_not_configured (w : world) (action : pystr) (output_data : json) e :
  get_platform_base_url w = Raise e →
  enrich w action output_data = Ok output_data.
Proof.
  intros Hu. unfold enrich, enrich_body. rewrite Hu. step_res.
  unfold get_platform_base_url in Hu.
  repeat (case_match; simplify_eq); done.
Qed.

End enrichment.

(** ** Concrete runs, with the Latin-1 runtime *)

Section runs.
#[local] Existing Instance Latin1.runtime.

Lemma example_is_webhook_call tag params text :
  is_webhook_call (Examples.webhook tag params text).
Proof.
  eexists. split; [reflexivity|].
  assert (u "fulfillmentInfo" ≠ u "sessionInfo") by key_ne.
  assert (u "fulfillmentInfo" ≠ u "text") by key_ne.
  rewrite lookup_insert_eq. eauto.
Defined.

(** The end-to-end scenario of the specification. *)
Example area_kpis_end_to_end :
  bot_stratix_backend_generative
    (Examples.world_with None
       (Examples.success
          (JObj {[ u "area_name" := JStr (u "Finanzas");
                   u "total_initiatives" := JInt 5;
                   u "avg_progress" := JInt 42 ]})))
    (Examples.tool_call (u "x/area_kpis")
       {[ u "nombre_area" := JStr (u "Finanzas") ]}) =
  Responds
    {| status := 200;
       body := tool_output (JStr (u "x/area_kpis"))
         (JObj {[ u "area_name" := JStr (u "Finanzas");
                  u "total_initiatives" := JInt 5;
                  u "avg_progress" := JInt 42 ]}) |}
  ∧ bot_stratix_backend_generative
    (Examples.world_with Examples.configured
       (Examples.success
          (JObj {[ u "area_name" := JStr (u "Finanzas");
                   u "total_initiatives" := JInt 5;
                   u "avg_progress" := JInt 42 ]})))
    (Examples.tool_call (u "x/area_kpis")
       {[ u "nombre_area" := JStr (u "Finanzas") ]}) =
  Responds
    {| status := 200;
       body := tool_output (JStr (u "x/area_kpis"))
         (JObj {[ u "area_name" := JStr (u "Finanzas");
                  u "total_initiatives" := JInt 5;
                  u "avg_progress" := JInt 42;
                  u "resumen" := JStr (u "El área 'Finanzas' tiene 5 iniciativas con un progreso promedio del 42%.") ]}) |}.
Proof. split; vm_compute; reflexivity. Qed.

Lemma whitespace_capture_gives_empty_name_witness :
  extract_initiative_name_from_text (JStr (u "iniciativa  ?")) = Ok (JStr [])
  ∧ map_webhook_tag
      (Examples.webhook (u "initiative_status") ∅ (u "iniciativa  ?")) =
      Ok (JObj ∅, (u "get_initiative_status", JObj ∅)).
Proof.
  pose proof (whitespace_capture_gives_empty_name
    (Examples.webhook (u "initiative_status") ∅ (u "iniciativa  ?")) (JObj ∅))
    as Hw.
  destruct Hw as (_ & _ & Hname & _ & Hmap & _);
    try (vm_compute; reflexivity).
  split; assumption.
Defined.

(** C1, the claim as written fails: the unsupported tag "foo" is answered
    with status 200, not with a 4xx. *)
Lemma unsupported_tag_is_not_a_client_error :
  is_webhook_call (Examples.webhook (u "foo") ∅ (u "hola"))
  ∧ supported_tag (JStr (u "foo")) = false
  ∧ bot_stratix_backend_generative
      (Examples.world_with None (Examples.success (JObj ∅)))
      (Examples.webhook (u "foo") ∅ (u "hola")) =
    Responds {| status := 200;
                body := fulfillment_response
                  (JStr (u "Lo siento, hubo un error: Internal error: Unsupported tag: foo")) |}
  ∧ ¬ client_error
        (bot_stratix_backend_generative
           (Examples.world_with None (Examples.success (JObj ∅)))
           (Examples.webhook (u "foo") ∅ (u "hola"))).
Proof.
  assert (bot_stratix_backend_generative
            (Examples.world_with None (Examples.success (JObj ∅)))
            (Examples.webhook (u "foo") ∅ (u "hola")) =
          Responds {| status := 200;
                      body := fulfillment_response
                        (JStr (u "Lo siento, hubo un error: Internal error: Unsupported tag: foo")) |})
    as Hrun by (vm_compute; reflexivity).
  split_and!.
  - apply example_is_webhook_call.
  - vm_compute. reflexivity.
  - exact Hrun.
  - rewrite Hrun. intros (r & [= <-] & Hs). cbn [status] in Hs. lia.
Qed.

Lemma unsupported_tag_reported_with_200_witness :
  outbound_call (Examples.world_with None (Examples.success (JObj ∅)))
    (Examples.webhook (u "foo") ∅ (u "hola")) = None
  ∧ bot_stratix_backend_generative
      (Examples.world_with None (Examples.success (JObj ∅)))
      (Examples.webhook (u "foo") ∅ (u "hola")) =
    Responds {| status := 200;
                body := fulfillment_response
                  (JStr (u "Lo siento, hubo un error: "
                         ++ str_of (JStr (u "Internal error: "
                              ++ (u "Unsupported tag: " ++ str_of (JStr (u "foo"))))))) |}.
Proof.
  eapply proj2, (unsupported_tag_reported_with_200
    (Examples.world_with None (Examples.success (JObj ∅)))
    (Examples.webhook (u "foo") ∅ (u "hola")) (JStr (u "foo")) (JObj ∅)).
  - apply example_is_webhook_call.
  - vm_compute. reflexivity.
  - vm_compute. reflexivity.
  - vm_compute. reflexivity.
Defined.

Lemma outbound_request_from_second_mapper_witness :
  outbound_call (Examples.world_with Examples.configured (Examples.success (JObj ∅)))
    (Examples.webhook (u "area_kpis") ∅ (u "KPIs del área de Finanzas"))
    = Some Examples.overview_call
  ∧ ∃ m sp,
      top_level_params
        (Examples.webhook (u "area_kpis") ∅ (u "KPIs del área de Finanzas"))
        = Ok (JObj m)
      ∧ map_parameters_again (JObj m) = Ok (action Examples.overview_call, sp)
      ∧ payload Examples.overview_call !! u "action" = Some (JStr (action Examples.overview_call))
      ∧ payload Examples.overview_call !! u "params" = Some sp
      ∧ (Spec.no_match m →
         action Examples.overview_call = u "get_company_overview" ∧ sp = JObj ∅).
Proof.
  assert (outbound_call (Examples.world_with Examples.configured (Examples.success (JObj ∅)))
            (Examples.webhook (u "area_kpis") ∅ (u "KPIs del área de Finanzas"))
          = Some Examples.overview_call) as Hcall by (vm_compute; reflexivity).
  split; [exact Hcall|].
  exact (outbound_request_from_second_mapper _ _ _ Hcall).
Defined.

Lemma outbound_action_in_closed_set_witness :
  ∃ a, payload Examples.overview_call !! u "action" = Some (JStr a) ∧ a ∈ action_kinds.
Proof.
  apply (outbound_action_in_closed_set
           (Examples.world_with Examples.configured (Examples.success (JObj ∅)))
           (Examples.tool_call (u "x/overview")
              {[ u "action" := JStr (u "company_overview") ]})).
  vm_compute. reflexivity.
Defined.



Lemma downstream_failure_reported_with_200_witness :
  try_except (Examples.world_with Examples.configured Examples.unavailable)
    (Examples.webhook (u "company_overview") ∅ (u "resumen general"))
    {| tool_name_full := None |} =
    ({| tool_name_full := None |},
     inr (JObj {[ u "error" :=
            JStr (u "Supabase request failed: " ++ str_of (JInt 503)
                  ++ u " - " ++ u "Service Unavailable") ]}))
  ∧ bot_stratix_backend_generative (Examples.world_with Examples.configured Examples.unavailable)
      (Examples.webhook (u "company_overview") ∅ (u "resumen general")) =
    Responds {| status := 200;
                body := fulfillment_response
                  (JStr (u "Lo siento, hubo un error: "
                         ++ str_of (JStr (u "Supabase request failed: "
                              ++ str_of (JInt 503) ++ u " - "
                              ++ u "Service Unavailable")))) |}.
Proof.
  apply (downstream_failure_reported_with_200
           (Examples.world_with Examples.configured Examples.unavailable)
           (Examples.webhook (u "company_overview") ∅ (u "resumen general"))
           Examples.overview_call).
  - apply example_is_webhook_call.
  - vm_compute. reflexivity.
  - apply (http_error {| status_code := 503; text := u "Service Unavailable";
                         json_body := Raise (RequestException (u "Expecting value")) |}).
    cbn [status_code]. lia.
Defined.

(** C10, where the code departs from the claim. A webhook call whose
    session parameters hold a user_id is routed to get_user_initiatives;
    when the data API answers with a list (here an empty one),
    [output_data] is that list, [output_data.get] at step 5 raises outside
    the [try], and the exception leaves the handler instead of a 200
    reply. The tool-call shape, sent the same parameters in the same world,
    is answered with status 200 and the list as output. *)
Lemma webhook_reply_can_escape :
  is_webhook_call
    (Examples.webhook (u "company_overview") {[ u "user_id" := JStr (u "u1") ]}
       (u "mis iniciativas"))
  ∧ bot_stratix_backend_generative
      (Examples.world_with Examples.configured (Examples.success (JArr [])))
      (Examples.webhook (u "company_overview") {[ u "user_id" := JStr (u "u1") ]}
         (u "mis iniciativas")) =
    Escapes (AttributeError (JArr []) (u "get"))
  ∧ (¬ ∃ r, bot_stratix_backend_generative
              (Examples.world_with Examples.configured (Examples.success (JArr [])))
              (Examples.webhook (u "company_overview")
                 {[ u "user_id" := JStr (u "u1") ]} (u "mis iniciativas")) =
            Responds r ∧ status r = 200%Z)
  ∧ bot_stratix_backend_generative
      (Examples.world_with Examples.configured (Examples.success (JArr [])))
      (Examples.tool_call (u "x/user_initiatives")
         {[ u "user_id" := JStr (u "u1") ]}) =
    Responds {| status := 200;
                body := tool_output (JStr (u "x/user_initiatives")) (JArr []) |}.
Proof.
  assert (bot_stratix_backend_generative
            (Examples.world_with Examples.configured (Examples.success (JArr [])))
            (Examples.webhook (u "company_overview")
               {[ u "user_id" := JStr (u "u1") ]} (u "mis iniciativas")) =
          Escapes (AttributeError (JArr []) (u "get"))) as Hrun
    by (vm_compute; reflexivity).
  split_and!.
  - apply example_is_webhook_call.
  - exact Hrun.
  - rewrite Hrun. intros (r & Hr & _). discriminate Hr.
  - vm_compute. reflexivity.
Qed.

Lemma webhook_answers_are_200_witness :
  is_webhook_call (Examples.webhook (u "foo") ∅ (u "hola"))
  ∧ (∀ r, bot_stratix_backend_generative
            (Examples.world_with None (Examples.success (JObj ∅)))
            (Examples.webhook (u "foo") ∅ (u "hola")) = Responds r →
          status r = 200%Z).
Proof.
  split; [apply example_is_webhook_call|].
  exact (proj1 (webhook_answers_are_200
                  (Examples.world_with None (Examples.success (JObj ∅)))
                  (Examples.webhook (u "foo") ∅ (u "hola"))
                  (example_is_webhook_call _ _ _))).
Defined.

(** C3, where the code departs from the claim. With no platform URL in
    the environment and none in Secret Manager, [get_platform_base_url]
    raises and the enrichment of an InitiativeStatus answer stops there:
    no link is added, but no resumen either, and the tool reply carries
    the data as the data API sent it. With a URL stored, both fields are
    added; with a blank one stored, the resumen alone. *)
Theorem enrichment_without_platform_url_skips_summary :
  get_platform_base_url (Examples.world_with None (Examples.success JNull)) =
    Raise (ValueError (u "Platform URL not configured - add STRATIX_PLATFORM_URL environment variable or secret"))
  ∧ enrich (Examples.world_with None (Examples.success JNull))
      (u "get_initiative_status") (JObj Examples.initiative_data) =
    Ok (JObj Examples.initiative_data)
  ∧ Examples.initiative_data !! u "link" = None
  ∧ Examples.initiative_data !! u "resumen" = None
  ∧ bot_stratix_backend_generative
      (Examples.world_with None
         (Examples.success (JObj Examples.initiative_data)))
      (Examples.tool_call (u "x/initiative_status")
         {[ u "nombre_iniciativa" := JStr (u "Migración de Datos") ]}) =
    Responds {| status := 200;
                body := tool_output (JStr (u "x/initiative_status"))
                          (JObj Examples.initiative_data) |}
  ∧ enrich (Examples.world_with Examples.configured (Examples.success JNull))
      (u "get_initiative_status") (JObj Examples.initiative_data) =
    Ok (JObj (<[u "resumen" := JStr (u "La iniciativa 'Migración de Datos' tiene un progreso del 40% y está en estado 'in_progress'.")]>
             (<[u "link" := JStr (u "https://app.example/initiatives/7")]>
                Examples.initiative_data)))
  ∧ enrich (Examples.world_with (Some (u "  ")) (Examples.success JNull))
      (u "get_initiative_status") (JObj Examples.initiative_data) =
    Ok (JObj (<[u "resumen" := JStr (u "La iniciativa 'Migración de Datos' tiene un progreso del 40% y está en estado 'in_progress'.")]>
                Examples.initiative_data)).
Proof. split_and!; vm_compute; reflexivity. Qed.

(** C4, where the code departs from the claim. For the tag
    initiative_status and the text "¿Cómo va la Iniciativa de Migración
    de Datos?" the extractor yields "Migración De Datos" and the tag
    mapper chooses get_initiative_status with that name; with empty
    session parameters the request that reaches the data API is
    nevertheless get_company_overview with empty params. *)
Theorem tag_mapping_is_overwritten :
  extract_initiative_name_from_text
    (JStr (u "¿Cómo va la Iniciativa de Migración de Datos?")) =
    Ok (JStr (u "Migración De Datos"))
  ∧ map_webhook_tag
      (Examples.webhook (u "initiative_status") ∅
         (u "¿Cómo va la Iniciativa de Migración de Datos?")) =
    Ok (JObj ∅,
        (u "get_initiative_status",
         JObj {[ u "nombre_iniciativa" := JStr (u "Migración De Datos") ]}))
  ∧ outbound_call
      (Examples.world_with Examples.configured (Examples.success (JObj ∅)))
      (Examples.webhook (u "initiative_status") ∅
         (u "¿Cómo va la Iniciativa de Migración de Datos?")) =
    Some Examples.overview_call.
Proof. split_and!; vm_compute; reflexivity. Qed.

End runs.

(** * Further properties *)

(** ** Secrets and configuration *)

Section whitespace.

(** What [lstrip] removes is a run of whitespace at the front. *)
Lemma lstrip_split (s : pystr) :
  ∃ pre, s = pre ++ lstrip s ∧ Forall (λ c, isspace c = true) pre.
Proof.
  induction s as [|c r (pre & Hr & Hpre)]; [by exists []|].
  cbn [lstrip]. destruct (isspace c) eqn:Hc.
  - exists (c :: pre). split; [by rewrite <- app_comm_cons, <- Hr|by constructor].
  - by exists [].
Qed.

Lemma lstrip_head (s : pystr) c r : lstrip s = c :: r → isspace c = false.
Proof.
  induction s as [|x s IH]; [discriminate|].
  cbn [lstrip]. destruct (isspace x) eqn:Hx; [done|]. by intros [= <- _].
Qed.

Lemma rstrip_split (s : pystr) : ∃ suf, s = rstrip s ++ suf.
Proof.
  unfold rstrip. destruct (lstrip_split (rev s)) as (pre & Hr & _).
  exists (rev pre). rewrite <- rev_app_distr, <- Hr. by rewrite rev_involutive.
Qed.

Lemma rstrip_last (s : pystr) c r : rstrip s = r ++ [c] → isspace c = false.
Proof.
  unfold rstrip. intros Hr. apply (f_equal (@rev N)) in Hr.
  rewrite rev_involutive, rev_app_distr in Hr. cbn in Hr.
  by eapply lstrip_head.
Qed.

Lemma strip_trimmed (s : pystr) : trimmed (strip s).
Proof.
  unfold strip. split; intros c r Hs.
  - destruct (rstrip_split (lstrip s)) as [suf Hsuf].
    rewrite Hs in Hsuf. by eapply lstrip_head.
  - by eapply rstrip_last.
Qed.

End whitespace.

Section secrets.
Context `{Runtime}.

Lemma or_else_unset (a b : option pystr) : unset a → or_else a b = b.
Proof. by intros [-> | ->]. Qed.

Lemma or_else_set (p : pystr) (b : option pystr) :
  p ≠ [] → or_else (Some p) b = Some p.
Proof. by destruct p. Qed.

(** X1. When none of GCP_PROJECT, GOOGLE_CLOUD_PROJECT, PROJECT_ID holds a
    non-empty value, [get_secret] raises ValueError("No project ID found
    in environment variables") for every secret name, whatever Secret
    Manager would answer, and no request of any shape reaches the data
    API. *)
Theorem get_secret_needs_project_id (w : world) (secret_name : pystr)
    (request_json : json) :
  unset (environ w (u "GCP_PROJECT")) →
  unset (environ w (u "GOOGLE_CLOUD_PROJECT")) →
  unset (environ w (u "PROJECT_ID")) →
  get_secret w secret_name =
    Raise (ValueError (u "No project ID found in environment variables"))
  ∧ outbound_call w request_json = None.
Proof.
  intros H1 H2 H3.
  assert (∀ name, get_secret w name =
            Raise (ValueError (u "No project ID found in environment variables")))
    as Hs.
  { intros name. unfold get_secret.
    rewrite (or_else_unset _ _ H1), (or_else_unset _ _ H2).
    by destruct H3 as [-> | ->]. }
  split; [apply Hs|].
  destruct (outbound_call w request_json) as [c|] eqn:Hc; [|reflexivity].
  apply outbound_call_prepare in Hc as [f Hp].
  apply prepare_call in Hp as (m & key & sp & _ & Hu & _).
  rewrite Hs in Hu. discriminate Hu.
Qed.

(** X2. The project of a secret is the first non-empty value among
    GCP_PROJECT, GOOGLE_CLOUD_PROJECT, PROJECT_ID, an empty value counting
    as absent; [get_secret] asks Secret Manager for
    projects/<project>/secrets/<name>/versions/latest and returns the
    payload stripped, or lets the exception through. *)
Theorem get_secret_project_precedence (w : world) (secret_name p : pystr) :
  p ≠ [] →
  environ w (u "GCP_PROJECT") = Some p
  ∨ (unset (environ w (u "GCP_PROJECT"))
     ∧ (environ w (u "GOOGLE_CLOUD_PROJECT") = Some p
        ∨ (unset (environ w (u "GOOGLE_CLOUD_PROJECT"))
           ∧ environ w (u "PROJECT_ID") = Some p))) →
  get_secret w secret_name =
    match access_secret_version w
            (u "projects/" ++ p ++ u "/secrets/" ++ secret_name
             ++ u "/versions/latest") with
    | Ok payload => Ok (strip payload)
    | Raise e => Raise e
    end.
Proof.
  intros Hp Hsrc. unfold get_secret.
  assert (or_else (environ w (u "GCP_PROJECT"))
            (or_else (environ w (u "GOOGLE_CLOUD_PROJECT"))
               (environ w (u "PROJECT_ID"))) = Some p) as ->.
  { destruct Hsrc as [-> | [H1 [-> | [H2 ->]]]].
    - by apply or_else_set.
    - rewrite (or_else_unset _ _ H1). by apply or_else_set.
    - rewrite (or_else_unset _ _ H1), (or_else_unset _ _ H2). reflexivity. }
  destruct p as [|c r]; [done|]. reflexivity.
Qed.

(** X3. A secret returned by [get_secret] never starts or ends with
    whitespace. *)
Theorem get_secret_is_trimmed (w : world) (secret_name s : pystr) :
  get_secret w secret_name = Ok s → trimmed s.
Proof.
  unfold get_secret. intros Hs.
  repeat (first [case_match | bind_cases]; simplify_eq); apply strip_trimmed.
Qed.

(** X4. [get_platform_base_url] fails in one way only, with
    ValueError("Platform URL not configured ..."), whatever went wrong in
    Secret Manager; enrichment then returns the data exactly as the data
    API sent it, for every action and every data value. *)
Theorem platform_url_failure_is_contained (w : world) (e : exn)
    (action : pystr) (output_data : json) :
  get_platform_base_url w = Raise e →
  e = ValueError (u "Platform URL not configured - add STRATIX_PLATFORM_URL environment variable or secret")
  ∧ enrich w action output_data = Ok output_data.
Proof.
  intros He. split; [|by eapply enrich_not_configured].
  unfold get_platform_base_url in He.
  repeat (case_match; simplify_eq); reflexivity.
Qed.

End secrets.

(** ** The matcher and the extractors *)

Section matching.
Context {A : Type}.

(** A successful [c+] hands its continuation the input minus a non-empty
    run of accepted characters. *)
Lemma many1_result (c : Re.cls) (pos : nat) (rest : pystr)
    (k : nat → pystr → option A) (a : A) :
  Re.many1 c pos rest k = Some a →
  ∃ g rest', rest = g ++ rest' ∧ g ≠ [] ∧
    Forall (λ x, Re.accepts c x = true) g ∧
    k (pos + length g)%nat rest' = Some a.
Proof.
  revert pos. induction rest as [|x xs IH]; intros pos; [discriminate|].
  cbn [Re.many1]. destruct (Re.accepts c x) eqn:Hx; [|discriminate].
  destruct (Re.many1 c (S pos) xs k) as [a'|] eqn:Hm.
  - intros [= ->]. apply IH in Hm as (g & rest' & -> & _ & Hg & Hk).
    exists (x :: g), rest'. split_and!; [done|done|by constructor|].
    cbn [length]. by rewrite Nat.add_succ_r.
  - intros Hk. exists [x], xs. split_and!; [done|done|by repeat constructor|].
    cbn [length]. by rewrite Nat.add_1_r.
Qed.

(** Whatever a successful run returns, it got from its continuation, called
    on a state whose remaining text is a suffix of the text it started on. *)
Lemma run_result (r : Re.regex) (s : Re.mstate) (k : Re.mstate → option A) (a : A) :
  Re.run r s k = Some a →
  ∃ s', k s' = Some a ∧ Re.m_rest s' `suffix_of` Re.m_rest s.
Proof.
  revert s k. induction r as [|c|c|r1 IH1 r2 IH2|r1 IH1 r2 IH2|r IH|r IH|];
    intros s k; cbn [Re.run].
  - intros Hk. by exists s.
  - destruct (Re.m_rest s) as [|x xs] eqn:Hs; [discriminate|].
    destruct (Re.accepts c x); [|discriminate]. intros Hk.
    eexists. split; [exact Hk|]. cbn. by apply suffix_cons_r.
  - intros (g & rest' & Hs & _ & _ & Hk)%many1_result.
    eexists. split; [exact Hk|]. cbn. rewrite Hs. by apply suffix_app_r.
  - intros (s1 & (s2 & Hk & H2)%IH2 & H1)%IH1.
    exists s2. split; [done|]. by etrans.
  - destruct (Re.run r1 s k) as [a'|] eqn:H1.
    + intros [= ->]. by apply IH1.
    + apply IH2.
  - destruct (Re.run r s k) as [a'|] eqn:H1.
    + intros [= ->]. by apply IH.
    + intros Hk. by exists s.
  - intros (s1 & Hk & H1)%IH. eexists. split; [exact Hk|]. done.
  - destruct (Re.m_pos s =? 0)%nat; [|discriminate]. intros Hk. by exists s.
Qed.

End matching.

Section extractors.
Context `{Runtime}.

(** A pattern that ends in [([^?]+)] always fills group 1, with a
    non-empty text free of question marks. *)
Lemma match_fills_group (x : Re.regex) (pos : nat) (rest : pystr) (m : Re.mstate) :
  Re.match_at (x · up_to_question_mark) pos rest = Some m →
  ∃ g, Re.m_grp m = Some g ∧ g ≠ [] ∧ 63 ∉ g.
Proof.
  unfold Re.match_at, up_to_question_mark. cbn [Re.run].
  intros (s1 & Hg & _)%run_result.
  apply many1_result in Hg as (g & rest' & Hs & Hne & Hg & [= <-]).
  exists g. cbn [Re.m_grp Re.m_pos Re.m_rest]. split_and!; [|done|].
  - rewrite Hs. f_equal. apply take_app_length'. lia.
  - intros Hin. rewrite Forall_forall in Hg. apply Hg in Hin. done.
Qed.

Lemma search_from_match (r : Re.regex) (pos : nat) (rest : pystr) (m : Re.mstate) :
  Re.search_from r pos rest = Some m →
  ∃ pos' rest', Re.match_at r pos' rest' = Some m.
Proof.
  revert pos. induction rest as [|x xs IH]; intros pos; cbn [Re.search_from];
    destruct (Re.match_at r pos _) as [m'|] eqn:Hm; try discriminate;
    try (intros [= ->]; eauto).
  apply IH.
Qed.

Lemma strip_elem (s : pystr) c : c ∈ strip s → c ∈ s.
Proof.
  unfold strip. intros Hc.
  destruct (rstrip_split (lstrip s)) as [suf Hsuf].
  destruct (lstrip_split s) as (pre & Hpre & _).
  rewrite Hpre, Hsuf. rewrite !elem_of_app. auto.
Qed.

Lemma sub_anchored_elem (r : Re.regex) (s : pystr) c :
  c ∈ Re.sub_anchored r s → c ∈ s.
Proof.
  unfold Re.sub_anchored, Re.match_at.
  destruct (Re.run r _ Some) as [m|] eqn:Hm; [|done].
  apply run_result in Hm as (s' & [= ->] & Hsuf). intros Hc.
  by eapply elem_of_suffix.
Qed.

(** The loop over patterns that all end in [([^?]+)] never raises; it
    gives None, or the title-cased form of a text without question mark. *)
Lemma scan_patterns_result (cleanup : Re.regex) (patterns : list Re.regex)
    (text_lower : pystr) :
  Forall (λ p, ∃ x, p = x · up_to_question_mark) patterns →
  ∃ v, scan_patterns cleanup patterns text_lower = Ok v ∧
    (v = JNull ∨ ∃ name, v = JStr (str_title name) ∧ 63 ∉ name).
Proof.
  induction 1 as [|p ps [x ->] _ IH]; cbn [scan_patterns]; [by eauto|].
  destruct (Re.search _ text_lower) as [m|] eqn:Hm; [|exact IH].
  apply search_from_match in Hm as (pos' & rest' & Hm).
  apply match_fills_group in Hm as (g & Hg & _ & Hq).
  unfold group1_strip. rewrite Hg. step_res.
  eexists. split; [reflexivity|]. right. eexists. split; [reflexivity|].
  intros Hin%sub_anchored_elem%strip_elem. done.
Qed.

Lemma initiative_patterns_shape :
  Forall (λ p, ∃ x, p = x · up_to_question_mark) initiative_patterns.
Proof. unfold initiative_patterns. repeat constructor; eexists; reflexivity. Qed.

Lemma area_patterns_shape :
  Forall (λ p, ∃ x, p = x · up_to_question_mark) area_patterns.
Proof. unfold area_patterns. repeat constructor; eexists; reflexivity. Qed.

(** X5. On a string the two extractors never raise: each returns None or
    a string. On anything else (a number, a list, null, ...) each raises
    AttributeError for the missing [lower]. *)
Theorem extractors_raise_on_non_strings_only (text : json) :
  match text with
  | JStr s =>
      (∃ v, extract_initiative_name_from_text text = Ok v
            ∧ (v = JNull ∨ ∃ t, v = JStr t))
      ∧ (∃ v, extract_area_name_from_text text = Ok v
              ∧ (v = JNull ∨ ∃ t, v = JStr t))
  | _ =>
      extract_initiative_name_from_text text = Raise (AttributeError text (u "lower"))
      ∧ extract_area_name_from_text text = Raise (AttributeError text (u "lower"))
  end.
Proof.
  destruct text; try (split; reflexivity).
  unfold extract_initiative_name_from_text, extract_area_name_from_text,
    lower_strip. step_res. split.
  - destruct (scan_patterns_result initiative_cleanup _ (strip (str_lower s))
                initiative_patterns_shape) as (v & -> & [->|(name & -> & _)]);
      eauto.
  - destruct (scan_patterns_result area_cleanup _ (strip (str_lower s))
                area_patterns_shape) as (v & -> & [->|(name & -> & _)]);
      eauto.
Qed.

(** X6. A name found by either extractor is the title-cased form of a
    piece of text that holds no question mark: the capture stops at the
    first [?]. *)
Theorem extracted_name_has_no_question_mark (s t : pystr) :
  extract_initiative_name_from_text (JStr s) = Ok (JStr t)
  ∨ extract_area_name_from_text (JStr s) = Ok (JStr t) →
  ∃ name, t = str_title name ∧ 63 ∉ name.
Proof.
  unfold extract_initiative_name_from_text, extract_area_name_from_text,
    lower_strip. step_res. intros [Hs|Hs].
  - destruct (scan_patterns_result initiative_cleanup _ (strip (str_lower s))
                initiative_patterns_shape) as (v & Hv & [->|(name & -> & Hq)]);
      rewrite Hv in Hs; simplify_eq. eauto.
  - destruct (scan_patterns_result area_cleanup _ (strip (str_lower s))
                area_patterns_shape) as (v & Hv & [->|(name & -> & Hq)]);
      rewrite Hv in Hs; simplify_eq. eauto.
Qed.

End extractors.

(** ** The tool-call path *)

Section tool_path.
Context `{Runtime}.

Lemma tool_call_truthy (request_json : json) :
  is_tool_call request_json →
  truthy request_json = true ∧
  contains (u "fulfillmentInfo") request_json = Ok false.
Proof.
  intros (m & -> & Hm & Hfi). cbn [truthy contains]. split.
  - by rewrite bool_decide_eq_false_2.
  - rewrite bool_decide_eq_false_2; [done|]. rewrite Hfi. by intros [].
Qed.

(** Step 5 on a tool call, once [tool_name_full] is bound. *)
Lemma respond_tool (request_json output_data t : json) :
  is_tool_call request_json →
  respond request_json output_data {| tool_name_full := Some t |} =
    ({| tool_name_full := Some t |},
     Ok {| status := 200; body := tool_output t output_data |}).
Proof.
  intros [_ Hc]%tool_call_truthy. unfold respond. unfold_M. by rewrite Hc.
Qed.

(** The first statement of the tool-call branch binds [tool_name_full],
    and nothing unbinds it. *)
Lemma prepare_tool_frame (w : world) (m : gmap pystr json) f r :
  is_tool_call (JObj m) →
  prepare w (JObj m) {| tool_name_full := None |} = (f, r) →
  f = {| tool_name_full := Some (default (JStr []) (m !! u "tool")) |}.
Proof.
  intros Hw. destruct (tool_call_truthy _ Hw) as [Ht Hc].
  unfold prepare. rewrite Ht. cbn [negb]. unfold map_tool_call. unfold_M.
  rewrite Hc. cbn [get]. intros Hp.
  repeat (case_match; simplify_eq); done.
Qed.

(** The one early return open to a tool call. *)
Lemma prepare_tool_early_return (w : world) (m : gmap pystr json) f early :
  is_tool_call (JObj m) →
  prepare w (JObj m) {| tool_name_full := None |} = (f, Ok (inl early)) →
  early = {| status := 500;
             body := tool_output (default (JStr []) (m !! u "tool"))
                       (JObj {[ u "error" :=
                          JStr (u "Unable to retrieve Supabase credentials") ]}) |}
  ∧ ∃ supabase_url supabase_key,
      get_secret w (u "supabase-edge-function-url") = Ok supabase_url ∧
      get_secret w (u "supabase-anon-key") = Ok supabase_key ∧
      (supabase_url = [] ∨ supabase_key = []).
Proof.
  intros Hw. destruct (tool_call_truthy _ Hw) as [Ht Hc].
  unfold prepare. rewrite Ht. cbn [negb]. unfold map_tool_call. unfold_M.
  rewrite Hc. cbn [get]. intros Hp.
  repeat (case_match; simplify_eq).
  match goal with Hf : tool_name_full _ = Some _ |- _ => injection Hf as <- end.
  split; [done|]. eexists _, _. split_and!; [done|done|].
  match goal with
  | Hb : negb (truthy_str ?a) || negb (truthy_str ?b) = true |- _ =>
      destruct a, b; cbn in Hb; auto; discriminate
  end.
Qed.

(** X7. A tool call is always answered, in the tool shape: whatever goes
    wrong inside the [try], the handler returns [tool_output] with the
    request's own [tool] value (the empty string when it has none) and
    status 200, or 500 on the branch for missing credentials; no exception
    leaves the function. *)
Theorem tool_call_is_always_answered (w : world) (m : gmap pystr json) :
  is_tool_call (JObj m) →
  ∃ code output,
    bot_stratix_backend_generative w (JObj m) =
      Responds {| status := code;
                  body := tool_output (default (JStr []) (m !! u "tool")) output |}
    ∧ (code = 200%Z ∨ code = 500%Z).
Proof.
  intros Hw. unfold bot_stratix_backend_generative, try_except, try_block, bind_M.
  destruct (prepare w (JObj m) _) as [f r] eqn:Hp.
  pose proof (prepare_tool_frame _ _ _ _ Hw Hp) as ->.
  destruct r as [[early|c]|e].
  - apply prepare_tool_early_return in Hp as [-> _]; [|done].
    unfold unit_M. eauto.
  - unfold lift, unit_M.
    destruct (requests_post w _ _ _ _) as [response|e].
    + destruct (read_reply w _ response) as [od|e];
        rewrite respond_tool by done; eauto.
    + rewrite respond_tool by done; eauto.
  - rewrite respond_tool by done; eauto.
Qed.

End tool_path.

(** ** Status codes *)

Section status_codes.
Context `{Runtime}.

Lemma respond_status (request_json output_data : json) f f' r :
  respond request_json output_data f = (f', Ok r) → status r = 200%Z.
Proof.
  unfold respond. unfold_M. intros Hr.
  repeat (case_match; simplify_eq); done.
Qed.

Lemma prepare_empty_body (w : world) (request_json : json) f :
  truthy request_json = false →
  prepare w request_json f =
    (f, Ok (inl {| status := 400;
                   body := fulfillment_response
                             (JStr (u "Error: No se recibieron datos")) |})).
Proof. intros Ht. unfold prepare. by rewrite Ht. Qed.

Lemma prepare_early_return (w : world) (request_json : json) f f' early :
  truthy request_json = true →
  prepare w request_json f = (f', Ok (inl early)) →
  status early = 500%Z ∧
  ∃ supabase_url supabase_key,
    get_secret w (u "supabase-edge-function-url") = Ok supabase_url ∧
    get_secret w (u "supabase-anon-key") = Ok supabase_key ∧
    (supabase_url = [] ∨ supabase_key = []).
Proof.
  intros Ht. unfold prepare. rewrite Ht. cbn [negb]. unfold_M. intros Hp.
  repeat (case_match; simplify_eq).
  all: split; [done|]; eexists _, _; split_and!; [done|done|].
  all: match goal with
       | Hb : negb (truthy_str ?a) || negb (truthy_str ?b) = true |- _ =>
           destruct a, b; cbn in Hb; auto; discriminate
       end.
Qed.

(** X8. The status codes of the handler. An empty body (null, {}, [], "",
    0, false) gets 400 and the fixed message, before anything else is
    looked at. Any other response is 500 or 200, and 500 means that both
    credentials were read and one of them is empty. *)
Theorem status_code_meaning (w : world) (request_json : json) :
  (truthy request_json = false →
   bot_stratix_backend_generative w request_json =
     Responds {| status := 400;
                 body := fulfillment_response
                           (JStr (u "Error: No se recibieron datos")) |})
  ∧ (∀ r, bot_stratix_backend_generative w request_json = Responds r →
       truthy request_json = true →
       status r = 200%Z
       ∨ (status r = 500%Z ∧
          ∃ supabase_url supabase_key,
            get_secret w (u "supabase-edge-function-url") = Ok supabase_url ∧
            get_secret w (u "supabase-anon-key") = Ok supabase_key ∧
            (supabase_url = [] ∨ supabase_key = []))).
Proof.
  split.
  - intros Ht. unfold bot_stratix_backend_generative, try_except, try_block, bind_M.
    by rewrite prepare_empty_body.
  - intros r Hr Ht. revert Hr.
    unfold bot_stratix_backend_generative, try_except, try_block, bind_M.
    destruct (prepare w request_json _) as [f [[early|c]|e]] eqn:Hp.
    + unfold unit_M. intros [= <-]. right. by eapply prepare_early_return.
    + unfold lift, unit_M. intros Hr. left.
      repeat (case_match; simplify_eq); by eapply respond_status.
    + intros Hr. left. repeat (case_match; simplify_eq). by eapply respond_status.
Qed.

End status_codes.

(** ** Tool calls that do not reach the data API *)

Section tool_errors.
Context `{Runtime}.

Lemma no_match_first_match (m : gmap pystr json) :
  Spec.no_match m → Spec.first_match Spec.precedence m = None.
Proof.
  unfold Spec.no_match. generalize Spec.precedence as rules.
  induction rules as [|r rules IH]; [reflexivity|].
  intros [Hr Hrest]%Forall_cons. cbn [Spec.first_match].
  rewrite Hr. by apply IH.
Qed.

(** Entering the tool-call branch. *)
Ltac enter_tool_branch Hw :=
  let Ht := fresh "Ht" in
  let Hc := fresh "Hc" in
  destruct (tool_call_truthy _ Hw) as [Ht Hc];
  unfold prepare in *; rewrite Ht in *; cbn [negb] in *;
  unfold map_tool_call in *; unfold_M; rewrite Hc in *; cbn [get] in *.

(** X9. A tool call whose parameters match no predicate (none of the six
    keys, no recognised [action]; absent parameters count as empty) is
    not forwarded: the ValueError of the first mapper is caught and the
    answer is status 200 with the message under [error], not a 4xx. *)
Theorem tool_call_without_action (w : world) (m p : gmap pystr json) (name : pystr) :
  is_tool_call (JObj m) →
  tool_name_of (default (JStr []) (m !! u "tool")) = Ok name →
  default (JObj ∅) (m !! u "tool_parameters") = JObj p →
  Spec.no_match p →
  outbound_call w (JObj m) = None
  ∧ bot_stratix_backend_generative w (JObj m) =
      Responds
        {| status := 200;
           body := tool_output (default (JStr []) (m !! u "tool"))
             (JObj {[ u "error" :=
                JStr (u "Internal error: "
                      ++ (u "No valid action found for tool parameters: "
                          ++ str_of (JObj p))) ]}) |}.
Proof.
  intros Hw Hname Hp Hno.
  assert (prepare w (JObj m) {| tool_name_full := None |} =
          ({| tool_name_full := Some (default (JStr []) (m !! u "tool")) |},
           Raise (ValueError (u "No valid action found for tool parameters: "
                              ++ str_of (JObj p))))) as Hprep.
  { enter_tool_branch Hw. rewrite Hname, Hp. unfold map_tool_parameters.
    rewrite map_parameters_first_match, no_match_first_match by done.
    reflexivity. }
  split.
  - unfold outbound_call. by rewrite Hprep.
  - unfold bot_stratix_backend_generative, try_except, try_block, bind_M.
    rewrite Hprep. by rewrite respond_tool.
Qed.

(** X10. A tool call that passes the first mapper while one of the two
    credentials is stored empty (or blank: secrets are stripped) gets the
    only 500 of the handler, "Unable to retrieve Supabase credentials",
    and nothing is sent. *)
Theorem tool_call_with_blank_credentials (w : world) (m : gmap pystr json)
    (name supabase_url supabase_key : pystr) (first : pystr * json) :
  is_tool_call (JObj m) →
  tool_name_of (default (JStr []) (m !! u "tool")) = Ok name →
  map_tool_parameters (default (JObj ∅) (m !! u "tool_parameters")) = Ok first →
  get_secret w (u "supabase-edge-function-url") = Ok supabase_url →
  get_secret w (u "supabase-anon-key") = Ok supabase_key →
  supabase_url = [] ∨ supabase_key = [] →
  outbound_call w (JObj m) = None
  ∧ bot_stratix_backend_generative w (JObj m) =
      Responds
        {| status := 500;
           body := tool_output (default (JStr []) (m !! u "tool"))
             (JObj {[ u "error" :=
                JStr (u "Unable to retrieve Supabase credentials") ]}) |}.
Proof.
  intros Hw Hname Hfirst Hu Hk Hblank.
  assert (prepare w (JObj m) {| tool_name_full := None |} =
          ({| tool_name_full := Some (default (JStr []) (m !! u "tool")) |},
           Ok (inl {| status := 500;
                      body := tool_output (default (JStr []) (m !! u "tool"))
                        (JObj {[ u "error" :=
                           JStr (u "Unable to retrieve Supabase credentials") ]}) |})))
    as Hprep.
  { enter_tool_branch Hw. rewrite Hname, Hfirst, Hu, Hk.
    by destruct Hblank as [-> | ->]; rewrite ?orb_true_r. }
  split.
  - unfold outbound_call. by rewrite Hprep.
  - unfold bot_stratix_backend_generative, try_except, try_block, bind_M.
    by rewrite Hprep.
Qed.

(** X11. On the tool-call path the second mapper changes nothing: when a
    tool call reaches the data API, the action and params sent are the
    ones the first mapper chose from a matching predicate; the fallback to
    the company overview is out of reach there. *)
Theorem tool_call_sends_first_mapping (w : world) (m : gmap pystr json) (c : call) :
  is_tool_call (JObj m) →
  outbound_call w (JObj m) = Some c →
  ∃ p sp,
    default (JObj ∅) (m !! u "tool_parameters") = JObj p ∧
    Spec.first_match Spec.precedence p = Some (action c, sp) ∧
    map_tool_parameters (JObj p) = Ok (action c, sp) ∧
    payload c !! u "action" = Some (JStr (action c)) ∧
    payload c !! u "params" = Some sp.
Proof.
  intros Hw [f Hprep]%outbound_call_prepare.
  pose proof Hprep as Hcall.
  apply prepare_call in Hcall as (p & key & sp & Htop & _ & _ & Hagain & Hpay).
  unfold top_level_params in Htop.
  rewrite (proj2 (tool_call_truthy _ Hw)) in Htop. cbn [mbind res_bind get] in Htop.
  injection Htop as Hp.
  enter_tool_branch Hw. rewrite Hp in Hprep.
  destruct (tool_name_of _) as [name|]; [|discriminate].
  destruct (map_tool_parameters (JObj p)) as [first|] eqn:Hfirst; [|discriminate].
  unfold map_tool_parameters in Hfirst. unfold map_parameters_again in Hagain.
  rewrite map_parameters_first_match in Hfirst, Hagain.
  destruct (Spec.first_match Spec.precedence p) as [r|] eqn:Hf; [|discriminate].
  injection Hagain as ->.
  exists p, sp. rewrite Hpay. split_and!; try done; try apply payload_fields.
  unfold map_tool_parameters. by rewrite map_parameters_first_match, Hf.
Qed.

End tool_errors.

(** ** What is sent to the data API *)

Section sent.
Context `{Runtime}.

(** Credentials, headers and target of an outbound call, and the body it
    was prepared from. *)
Lemma prepare_call_transport (w : world) (request_json : json) f c :
  prepare w request_json {| tool_name_full := None |} = (f, Ok (inr c)) →
  ∃ supabase_key,
    get_secret w (u "supabase-edge-function-url") = Ok (url c) ∧
    get_secret w (u "supabase-anon-key") = Ok supabase_key ∧
    url c ≠ [] ∧ supabase_key ≠ [] ∧
    headers c = {[ u "Content-Type" := u "application/json";
                   u "Authorization" := u "Bearer " ++ supabase_key;
                   u "apikey" := supabase_key ]} ∧
    timeout c = 30%Z ∧
    truthy request_json = true ∧
    ∃ m, request_json = JObj m.
Proof.
  unfold prepare, map_tool_call. unfold_M. intros Hp.
  destruct (truthy request_json) eqn:Ht; cbn [negb] in Hp; [|discriminate].
  assert (∃ m, request_json = JObj m) as Hobj.
  { destruct request_json; eauto; exfalso; revert Hp;
      cbn [contains get]; unfold map_webhook_tag, webhook_tag; cbn [get];
      step_res; repeat (case_match; simplify_eq); discriminate. }
  repeat (case_match; simplify_eq).
  all: eexists; split_and!; try done; cbn [url].
  all: match goal with
       | Hb : negb (truthy_str ?a) || negb (truthy_str ?b) = false |- _ =>
           destruct a, b; cbn in Hb; done
       end.
Qed.

(** X12. A request reaches the data API only from a non-empty JSON object
    and with both credentials non-empty: it goes to the stored URL, with
    exactly the headers Content-Type: application/json, Authorization:
    Bearer <key> and apikey: <key>, and a timeout of 30 seconds. *)
Theorem outbound_transport (w : world) (request_json : json) (c : call) :
  outbound_call w request_json = Some c →
  ∃ m supabase_key,
    request_json = JObj m ∧ m ≠ ∅ ∧
    get_secret w (u "supabase-edge-function-url") = Ok (url c) ∧
    get_secret w (u "supabase-anon-key") = Ok supabase_key ∧
    url c ≠ [] ∧ supabase_key ≠ [] ∧
    headers c = {[ u "Content-Type" := u "application/json";
                   u "Authorization" := u "Bearer " ++ supabase_key;
                   u "apikey" := supabase_key ]} ∧
    timeout c = 30%Z.
Proof.
  intros [f Hp]%outbound_call_prepare.
  apply prepare_call_transport in Hp
    as (key & Hu & Hk & Hun & Hkn & Hh & Ht & Htruthy & m & ->).
  exists m, key. split_and!; try done.
  intros ->. cbn in Htruthy. by rewrite bool_decide_eq_true_2 in Htruthy.
Qed.


(** X14. When the data API answers 200 with a body whose [success] is
    missing or falsy, a webhook call gets status 200 and the apology with
    the body's [error] value, or "Unknown error from Supabase" when the
    body has none; the data is not enriched. *)
Theorem business_error_reported_with_200 (w : world) (request_json : json)
    (c : call) (response : http_reply) (result : gmap pystr json) :
  is_webhook_call request_json →
  outbound_call w request_json = Some c →
  requests_post w (url c) (JObj (payload c)) (headers c) (timeout c) = Ok response →
  status_code response = 200%Z →
  json_body response = Ok (JObj result) →
  truthy (default JNull (result !! u "success")) = false →
  bot_stratix_backend_generative w request_json =
    Responds
      {| status := 200;
         body := fulfillment_response
           (JStr (u "Lo siento, hubo un error: "
                  ++ str_of (default (JStr (u "Unknown error from Supabase"))
                                     (result !! u "error")))) |}.
Proof.
  intros Hw [f Hp]%outbound_call_prepare Hpost Hstatus Hbody Hsuccess.
  pose proof (prepare_webhook_frame _ _ _ _ Hw Hp) as ->.
  unfold bot_stratix_backend_generative, try_except, try_block, bind_M.
  rewrite Hp. unfold lift, unit_M. rewrite Hpost.
  unfold read_reply. rewrite Hstatus, Hbody. cbn [Z.eqb Pos.eqb mbind res_bind get].
  rewrite Hsuccess. cbn [mbind res_bind].
  rewrite respond_webhook by done. by rewrite lookup_singleton_eq.
Qed.

End sent.

(** ** Enrichment *)

Section enrichment_extras.
Context `{Runtime}.

(** Enrichment touches two keys at most. *)
Lemma enrich_result_shape (w : world) (action : pystr) (output_data v : json) :
  enrich w action output_data = Ok v →
  v = output_data
  ∨ ∃ od od' summary,
      output_data = JObj od ∧ v = JObj od' ∧
      od' !! u "resumen" = Some (JStr summary) ∧
      ∀ k, k ≠ u "link" → k ≠ u "resumen" → od' !! k = od !! k.
Proof.
  assert (u "link" ≠ u "resumen") by key_ne.
  unfold enrich. destruct (enrich_body w action output_data) as [v'|e] eqn:Hb;
    [intros [= <-]|destruct e; intros [= <-]; by left].
  revert Hb. unfold enrich_body.
  destruct (get_platform_base_url w) as [platform_url|e];
    cbn [mbind res_bind]; [|discriminate].
  destruct output_data as [| | | | | |od].
  7: { intros Hb.
       repeat (first [case_match | bind_cases];
               cbn [get setitem mbind res_bind orb andb negb] in *; simplify_eq).
       all: try (by left).
       all: right; eexists od, _, _; split_and!;
         [reflexivity
         |reflexivity
         |first [by rewrite lookup_insert_eq
                |by rewrite lookup_insert_ne, lookup_insert_eq by done]
         |intros k Hl Hr; by rewrite ?lookup_insert_ne by done]. }
  all: intros Hb;
    repeat (case_match;
            cbn [get setitem mbind res_bind orb andb negb] in *; simplify_eq);
    by left.
Qed.

(** X15. Enrichment only ever adds or overwrites the keys link and
    resumen: it returns the data unchanged, or the same object with a
    resumen string set, possibly a link, and every other key as the data
    API sent it. *)
Theorem enrichment_only_adds_link_and_summary (w : world) (action : pystr)
    (output_data v : json) :
  enrich w action output_data = Ok v →
  v = output_data
  ∨ ∃ od od' summary,
      output_data = JObj od ∧ v = JObj od' ∧
      od' !! u "resumen" = Some (JStr summary) ∧
      ∀ k, k ≠ u "link" → k ≠ u "resumen" → od' !! k = od !! k.
Proof. apply enrich_result_shape. Qed.

(** X16. With a platform URL at hand, a non-empty object returned for
    get_initiative_status is always given its resumen; the link
    <url>/initiatives/<id> is set exactly when the URL is not empty and the
    object has a truthy id, and a link already in the data is otherwise
    left alone. *)
Theorem initiative_status_summary (w : world) (platform_url : pystr)
    (od : gmap pystr json) :
  get_platform_base_url w = Ok platform_url →
  od ≠ ∅ →
  ∃ od',
    enrich w (u "get_initiative_status") (JObj od) = Ok (JObj od') ∧
    od' !! u "resumen" =
      Some (JStr (u "La iniciativa '" ++ str_of (default (JStr []) (od !! u "title"))
                  ++ u "' tiene un progreso del "
                  ++ str_of (default (JInt 0) (od !! u "progress"))
                  ++ u "% y está en estado '"
                  ++ str_of (default (JStr []) (od !! u "status")) ++ u "'.")) ∧
    od' !! u "link" =
      if truthy_str platform_url && truthy (default JNull (od !! u "id"))
      then Some (JStr (platform_url ++ u "/initiatives/"
                       ++ str_of (default JNull (od !! u "id"))))
      else od !! u "link".
Proof.
  assert (u "link" ≠ u "resumen") by key_ne.
  assert (u "link" ≠ u "title") by key_ne.
  assert (u "link" ≠ u "progress") by key_ne.
  assert (u "link" ≠ u "status") by key_ne.
  intros Hu Hod. unfold enrich, enrich_body. rewrite Hu.
  rewrite bool_decide_eq_true_2 by done.
  cbn [truthy]. rewrite bool_decide_eq_false_2 by done.
  cbn [mbind res_bind andb negb].
  destruct (truthy_str platform_url);
    cbn [get setitem mbind res_bind orb andb negb].
  - destruct (truthy (default JNull (od !! u "id")));
      cbn [get setitem mbind res_bind orb andb negb];
      eexists; split_and!; try reflexivity;
      repeat (rewrite lookup_insert_eq || rewrite lookup_insert_ne by done);
      reflexivity.
  - eexists; split_and!; try reflexivity;
      repeat (rewrite lookup_insert_eq || rewrite lookup_insert_ne by done);
      reflexivity.
Qed.

(** X20. A successful answer whose data object has a key error, whatever
    its value (null included), is reported to a webhook caller as a
    failure: the reply is the apology, built from that value or from the
    exception enrichment raised, never the summary. *)
Theorem error_key_in_data_hides_summary (w : world) (request_json : json)
    (c : call) (response : http_reply) (result od : gmap pystr json) (e : json) :
  is_webhook_call request_json →
  outbound_call w request_json = Some c →
  requests_post w (url c) (JObj (payload c)) (headers c) (timeout c) = Ok response →
  status_code response = 200%Z →
  json_body response = Ok (JObj result) →
  truthy (default JNull (result !! u "success")) = true →
  result !! u "data" = Some (JObj od) →
  od !! u "error" = Some e →
  ∃ shown,
    bot_stratix_backend_generative w request_json =
      Responds {| status := 200;
                  body := fulfillment_response
                    (JStr (u "Lo siento, hubo un error: " ++ str_of shown)) |}
    ∧ (shown = e ∨ ∃ x, shown = JStr (error_message x)).
Proof.
  assert (u "error" ≠ u "link") by key_ne.
  assert (u "error" ≠ u "resumen") by key_ne.
  intros Hw [f Hp]%outbound_call_prepare Hpost Hstatus Hbody Hsuccess Hdata He.
  pose proof (prepare_webhook_frame _ _ _ _ Hw Hp) as ->.
  unfold bot_stratix_backend_generative, try_except, try_block, bind_M.
  rewrite Hp. unfold lift, unit_M. rewrite Hpost.
  unfold read_reply. rewrite Hstatus, Hbody. cbn [Z.eqb Pos.eqb mbind res_bind get].
  rewrite Hsuccess, Hdata. cbn [mbind res_bind default from_option id].
  destruct (enrich w (action c) (JObj od)) as [v|x] eqn:Hv.
  - apply enrich_result_shape in Hv
      as [->|(od0 & od' & summary & [= <-] & -> & _ & Hkeep)].
    + cbv beta iota. rewrite respond_webhook by done. rewrite He. eauto.
    + cbv beta iota. rewrite respond_webhook by done.
      rewrite Hkeep, He by done. eauto.
  - cbv beta iota. unfold error_data. rewrite respond_webhook by done.
    rewrite lookup_singleton_eq. eauto.
Qed.

End enrichment_extras.

(** ** Defaults, reply text, odd bodies *)

Section more_edges.
Context `{Runtime}.

(** X17. The limit defaults. With none of the initiative and area keys
    present, a user_id resolves to get_user_initiatives with the caller's
    limit, or 10 when there is none; without user_id, a query resolves to
    search_initiatives with the caller's limit, or 20. A limit that is
    given is passed on as it is. Both copies of the mapper agree. *)
Theorem limit_defaults (m : gmap pystr json) (v : json)
    (otherwise : res (pystr * json)) :
  m !! u "nombre_iniciativa" = None → m !! u "initiative_id" = None →
  m !! u "nombre_area" = None → m !! u "area_id" = None →
  (m !! u "user_id" = Some v →
   map_parameters (JObj m) otherwise =
     Ok (u "get_user_initiatives",
         JObj {[ u "user_id" := v;
                 u "limit" := default (JInt 10) (m !! u "limit") ]}))
  ∧ (m !! u "user_id" = None → m !! u "query" = Some v →
     map_parameters (JObj m) otherwise =
       Ok (u "search_initiatives",
           JObj {[ u "query" := v;
                   u "limit" := default (JInt 20) (m !! u "limit") ]})).
Proof.
  intros H1 H2 H3 H4. rewrite map_parameters_first_match.
  unfold Spec.precedence, Spec.first_match, Spec.applies, Spec.resolves,
    Spec.has, Spec.value, Spec.value_or.
  rewrite H1, H2, H3, H4.
  rewrite !(bool_decide_eq_false_2 (is_Some None)) by (by intros []).
  cbn [orb]. split.
  - intros ->. by rewrite bool_decide_eq_true_2 by eauto.
  - intros -> ->. rewrite bool_decide_eq_false_2 by (by intros []).
    by rewrite bool_decide_eq_true_2 by eauto.
Qed.

Lemma extract_result_shape (text v : json) :
  extract_initiative_name_from_text text = Ok v
  ∨ extract_area_name_from_text text = Ok v →
  v = JNull ∨ ∃ t, v = JStr t.
Proof.
  unfold extract_initiative_name_from_text, extract_area_name_from_text,
    lower_strip.
  destruct text; step_res; try (by intros [|]).
  intros [Hv|Hv].
  - destruct (scan_patterns_result initiative_cleanup _ (strip (str_lower s))
                initiative_patterns_shape) as (v' & Hv' & Hs).
    rewrite Hv' in Hv. injection Hv as <-.
    destruct Hs as [|(name & -> & _)]; eauto.
  - destruct (scan_patterns_result area_cleanup _ (strip (str_lower s))
                area_patterns_shape) as (v' & Hv' & Hs).
    rewrite Hv' in Hv. injection Hv as <-.
    destruct Hs as [|(name & -> & _)]; eauto.
Qed.

Lemma name_param_shape (key : pystr) (v : json) :
  v = JNull ∨ (∃ t, v = JStr t) →
  name_param key v = JObj ∅
  ∨ ∃ t, t ≠ [] ∧ name_param key v = JObj {[ key := JStr t ]}.
Proof.
  unfold name_param. intros [->|[t ->]]; [by left|].
  destruct t as [|c t]; [by left|]. right. exists (c :: t). by split.
Qed.

(** X18. What the tag mapper yields for a webhook call: the session
    parameters, untouched, as [params]; and as action and params either
    get_company_overview with {}, or get_initiative_status /
    get_area_kpis with {} or with the one key nombre_iniciativa /
    nombre_area holding a non-empty string. A name is never null and
    never empty: the key is left out instead. *)
Theorem tag_mapping_shape (request_json params : json) (a : pystr) (sp : json) :
  map_webhook_tag request_json = Ok (params, (a, sp)) →
  session_parameters request_json = Ok params
  ∧ ((a = u "get_company_overview" ∧ sp = JObj ∅)
     ∨ (a = u "get_initiative_status"
        ∧ (sp = JObj ∅
           ∨ ∃ t, t ≠ [] ∧ sp = JObj {[ u "nombre_iniciativa" := JStr t ]}))
     ∨ (a = u "get_area_kpis"
        ∧ (sp = JObj ∅
           ∨ ∃ t, t ≠ [] ∧ sp = JObj {[ u "nombre_area" := JStr t ]}))).
Proof.
  intros Hm. split; [by eapply map_webhook_tag_params|].
  revert Hm. unfold map_webhook_tag. intros Hm.
  repeat (first [case_match | bind_cases]; simplify_eq).
  - by left.
  - right; left. split; [done|].
    apply name_param_shape. eapply extract_result_shape. by left.
  - right; right. split; [done|].
    apply name_param_shape. eapply extract_result_shape. by right.
Qed.

(** X19. A body that is valid JSON but not an object never reaches the
    data API. A number or [true] makes the [in] test raise TypeError,
    inside the [try] and again at step 5, where it leaves the function. A
    string or list containing "fulfillmentInfo" is taken for a webhook
    call and gets the 200 apology for its missing [get]. Any other
    non-empty string or list is taken for a tool call, and the reply
    fails on the unbound [tool_name_full]. *)
Theorem non_object_body (w : world) (request_json : json) :
  truthy request_json = true →
  (∀ m, request_json ≠ JObj m) →
  outbound_call w request_json = None
  ∧ match contains (u "fulfillmentInfo") request_json with
    | Raise e => bot_stratix_backend_generative w request_json = Escapes e
    | Ok true =>
        bot_stratix_backend_generative w request_json =
          Responds
            {| status := 200;
               body := fulfillment_response
                 (JStr (u "Lo siento, hubo un error: "
                        ++ str_of (JStr (u "Internal error: "
                             ++ builtin_message
                                  (AttributeError request_json (u "get")))))) |}
    | Ok false =>
        bot_stratix_backend_generative w request_json =
          Escapes (UnboundLocalError (u "tool_name_full"))
    end.
Proof.
  intros Ht Hno.
  assert (∀ k d, get request_json k d = Raise (AttributeError request_json (u "get")))
    as Hget by (intros k d; destruct request_json; try done; by edestruct Hno).
  assert (prepare w request_json {| tool_name_full := None |} =
          ({| tool_name_full := None |},
           match contains (u "fulfillmentInfo") request_json with
           | Raise e => Raise e
           | Ok _ => Raise (AttributeError request_json (u "get"))
           end)) as Hp.
  { unfold prepare, map_tool_call, map_webhook_tag, webhook_tag. rewrite Ht.
    cbn [negb]. unfold_M. rewrite !Hget.
    by destruct (contains _ request_json) as [[]|]. }
  split; [unfold outbound_call; rewrite Hp; by repeat case_match|].
  unfold bot_stratix_backend_generative, try_except, try_block, bind_M.
  rewrite Hp. unfold respond. unfold_M.
  destruct (contains _ request_json) as [[]|e] eqn:Hc; cbn [tool_name_full];
    [|done|done].
  unfold error_data, error_message. cbn [is_request_exception str_exn get contains].
  rewrite bool_decide_eq_true_2 by (rewrite lookup_singleton_eq; eauto).
  cbn [getitem]. by rewrite lookup_singleton_eq.
Qed.

End more_edges.

(** ** Further concrete runs, with the Latin-1 runtime *)

Section more_runs.
#[local] Existing Instance Latin1.runtime.

Lemma example_is_tool_call tool params :
  is_tool_call (Examples.tool_call tool params).
Proof.
  eexists. split; [reflexivity|].
  assert (u "tool" ≠ u "fulfillmentInfo") by key_ne.
  assert (u "tool_parameters" ≠ u "fulfillmentInfo") by key_ne.
  split; [apply insert_non_empty|].
  rewrite lookup_insert_ne by done. by apply lookup_singleton_ne.
Defined.

Lemma get_secret_needs_project_id_witness :
  get_secret Cases.bare_world (u "supabase-anon-key") =
    Raise (ValueError (u "No project ID found in environment variables"))
  ∧ outbound_call Cases.bare_world
      (Examples.tool_call (u "x/search") {[ u "query" := JStr (u "revenue") ]})
    = None.
Proof. apply get_secret_needs_project_id; left; reflexivity. Defined.

Lemma get_secret_project_precedence_witness :
  get_secret Cases.second_variable_world (u "supabase-anon-key") = Ok (u "anon-key")
  ∧ get_secret Cases.second_variable_world (u "supabase-anon-key") =
      match access_secret_version Cases.second_variable_world
              (u "projects/" ++ u "demo" ++ u "/secrets/" ++ u "supabase-anon-key"
               ++ u "/versions/latest") with
      | Ok payload => Ok (strip payload)
      | Raise e => Raise e
      end.
Proof.
  split; [vm_compute; reflexivity|].
  apply get_secret_project_precedence; [key_ne|].
  right. split; [right; vm_compute; reflexivity|].
  left. vm_compute. reflexivity.
Defined.

Lemma get_secret_is_trimmed_witness : trimmed (u "anon-key").
Proof.
  apply (get_secret_is_trimmed Cases.second_variable_world (u "supabase-anon-key")).
  vm_compute. reflexivity.
Defined.

Lemma platform_url_failure_is_contained_witness :
  ValueError (u "Platform URL not configured - add STRATIX_PLATFORM_URL environment variable or secret")
  = ValueError (u "Platform URL not configured - add STRATIX_PLATFORM_URL environment variable or secret")
  ∧ enrich Cases.bare_world (u "get_area_kpis") (JObj Examples.initiative_data) =
      Ok (JObj Examples.initiative_data).
Proof.
  apply (platform_url_failure_is_contained Cases.bare_world).
  vm_compute. reflexivity.
Defined.

Lemma extracted_name_has_no_question_mark_witness :
  ∃ name, u "Migración De Datos" = str_title name ∧ 63 ∉ name.
Proof.
  apply (extracted_name_has_no_question_mark
           (u "¿Cómo va la Iniciativa de Migración de Datos?")).
  left. vm_compute. reflexivity.
Defined.

Lemma tool_call_is_always_answered_witness :
  ∃ code output,
    bot_stratix_backend_generative Cases.bare_world
      (Examples.tool_call (u "x/search") {[ u "query" := JStr (u "revenue") ]}) =
      Responds
        {| status := code;
           body := tool_output
             (default (JStr [])
                (({[ u "tool" := JStr (u "x/search");
                     u "tool_parameters" := JObj {[ u "query" := JStr (u "revenue") ]} ]}
                    : gmap pystr json) !! u "tool"))
             output |}
    ∧ (code = 200%Z ∨ code = 500%Z).
Proof.
  apply (tool_call_is_always_answered Cases.bare_world).
  apply (example_is_tool_call (u "x/search") {[ u "query" := JStr (u "revenue") ]}).
Defined.

Lemma tool_call_without_action_witness :
  outbound_call (Examples.world_with None (Examples.success (JObj ∅)))
    (Examples.tool_call (u "x/unknown") {[ u "foo" := JInt 1 ]}) = None
  ∧ bot_stratix_backend_generative
      (Examples.world_with None (Examples.success (JObj ∅)))
      (Examples.tool_call (u "x/unknown") {[ u "foo" := JInt 1 ]}) =
    Responds
      {| status := 200;
         body := tool_output
           (default (JStr [])
              (({[ u "tool" := JStr (u "x/unknown");
                   u "tool_parameters" := JObj {[ u "foo" := JInt 1 ]} ]}
                  : gmap pystr json) !! u "tool"))
           (JObj {[ u "error" :=
              JStr (u "Internal error: "
                    ++ (u "No valid action found for tool parameters: "
                        ++ str_of (JObj {[ u "foo" := JInt 1 ]}))) ]}) |}.
Proof.
  apply (tool_call_without_action
           (Examples.world_with None (Examples.success (JObj ∅)))
           {[ u "tool" := JStr (u "x/unknown");
              u "tool_parameters" := JObj {[ u "foo" := JInt 1 ]} ]}
           {[ u "foo" := JInt 1 ]} (u "unknown")).
  - apply (example_is_tool_call (u "x/unknown") {[ u "foo" := JInt 1 ]}).
  - vm_compute. reflexivity.
  - vm_compute. reflexivity.
  - unfold Spec.no_match, Spec.precedence.
    repeat constructor; vm_compute; reflexivity.
Defined.

Lemma tool_call_with_blank_credentials_witness :
  outbound_call Cases.blank_key_world
    (Examples.tool_call (u "x/search") {[ u "query" := JStr (u "revenue") ]}) = None
  ∧ bot_stratix_backend_generative Cases.blank_key_world
      (Examples.tool_call (u "x/search") {[ u "query" := JStr (u "revenue") ]}) =
    Responds
      {| status := 500;
         body := tool_output
           (default (JStr [])
              (({[ u "tool" := JStr (u "x/search");
                   u "tool_parameters" := JObj {[ u "query" := JStr (u "revenue") ]} ]}
                  : gmap pystr json) !! u "tool"))
           (JObj {[ u "error" :=
              JStr (u "Unable to retrieve Supabase credentials") ]}) |}.
Proof.
  apply (tool_call_with_blank_credentials Cases.blank_key_world
           {[ u "tool" := JStr (u "x/search");
              u "tool_parameters" := JObj {[ u "query" := JStr (u "revenue") ]} ]}
           (u "search") (u "https://db.example/functions/v1/stratix") []
           (u "search_initiatives",
            JObj {[ u "query" := JStr (u "revenue"); u "limit" := JInt 20 ]})).
  - apply (example_is_tool_call (u "x/search") {[ u "query" := JStr (u "revenue") ]}).
  - vm_compute. reflexivity.
  - vm_compute. reflexivity.
  - vm_compute. reflexivity.
  - vm_compute. reflexivity.
  - right. reflexivity.
Defined.

Lemma search_call_is_sent :
  outbound_call (Examples.world_with Examples.configured (Examples.success (JObj ∅)))
    (Examples.tool_call (u "x/search")
       {[ u "query" := JStr (u "revenue"); u "user_token" := JStr (u "jwt") ]})
  = Some Cases.search_call.
Proof. vm_compute. reflexivity. Defined.

Lemma tool_call_sends_first_mapping_witness :
  ∃ p sp,
    default (JObj ∅)
      (({[ u "tool" := JStr (u "x/search");
           u "tool_parameters" :=
             JObj {[ u "query" := JStr (u "revenue");
                     u "user_token" := JStr (u "jwt") ]} ]}
          : gmap pystr json) !! u "tool_parameters") = JObj p ∧
    Spec.first_match Spec.precedence p = Some (action Cases.search_call, sp) ∧
    map_tool_parameters (JObj p) = Ok (action Cases.search_call, sp) ∧
    payload Cases.search_call !! u "action" = Some (JStr (action Cases.search_call)) ∧
    payload Cases.search_call !! u "params" = Some sp.
Proof.
  apply (tool_call_sends_first_mapping
           (Examples.world_with Examples.configured (Examples.success (JObj ∅)))).
  - apply (example_is_tool_call (u "x/search")
             {[ u "query" := JStr (u "revenue"); u "user_token" := JStr (u "jwt") ]}).
  - exact search_call_is_sent.
Defined.

Lemma outbound_transport_witness :
  ∃ m supabase_key,
    Examples.tool_call (u "x/search")
      {[ u "query" := JStr (u "revenue"); u "user_token" := JStr (u "jwt") ]}
    = JObj m ∧ m ≠ ∅ ∧
    get_secret (Examples.world_with Examples.configured (Examples.success (JObj ∅)))
      (u "supabase-edge-function-url") = Ok (url Cases.search_call) ∧
    get_secret (Examples.world_with Examples.configured (Examples.success (JObj ∅)))
      (u "supabase-anon-key") = Ok supabase_key ∧
    url Cases.search_call ≠ [] ∧ supabase_key ≠ [] ∧
    headers Cases.search_call =
      {[ u "Content-Type" := u "application/json";
         u "Authorization" := u "Bearer " ++ supabase_key;
         u "apikey" := supabase_key ]} ∧
    timeout Cases.search_call = 30%Z.
Proof. exact (outbound_transport _ _ _ search_call_is_sent). Defined.


Lemma business_error_reported_with_200_witness :
  bot_stratix_backend_generative
    (Examples.world_with Examples.configured Cases.refused)
    (Examples.webhook (u "company_overview") ∅ (u "resumen general")) =
  Responds
    {| status := 200;
       body := fulfillment_response
         (JStr (u "Lo siento, hubo un error: "
                ++ str_of (default (JStr (u "Unknown error from Supabase"))
                     (({[ u "success" := JBool false;
                          u "error" := JStr (u "Initiative not found") ]}
                         : gmap pystr json) !! u "error")))) |}.
Proof.
  apply (business_error_reported_with_200
           (Examples.world_with Examples.configured Cases.refused)
           (Examples.webhook (u "company_overview") ∅ (u "resumen general"))
           Examples.overview_call
           {| status_code := 200; text := [];
              json_body := Ok (JObj {[ u "success" := JBool false;
                                       u "error" := JStr (u "Initiative not found") ]}) |}).
  - apply example_is_webhook_call.
  - vm_compute. reflexivity.
  - reflexivity.
  - reflexivity.
  - reflexivity.
  - vm_compute. reflexivity.
Defined.

Lemma enrichment_only_adds_link_and_summary_witness :
  JObj (<[u "resumen" := JStr (u "La iniciativa 'Migración de Datos' tiene un progreso del 40% y está en estado 'in_progress'.")]>
          (<[u "link" := JStr (u "https://app.example/initiatives/7")]>
             Examples.initiative_data))
  = JObj Examples.initiative_data
  ∨ ∃ od od' summary,
      JObj Examples.initiative_data = JObj od ∧
      JObj (<[u "resumen" := JStr (u "La iniciativa 'Migración de Datos' tiene un progreso del 40% y está en estado 'in_progress'.")]>
              (<[u "link" := JStr (u "https://app.example/initiatives/7")]>
                 Examples.initiative_data)) = JObj od' ∧
      od' !! u "resumen" = Some (JStr summary) ∧
      ∀ k, k ≠ u "link" → k ≠ u "resumen" → od' !! k = od !! k.
Proof.
  apply (enrichment_only_adds_link_and_summary
           (Examples.world_with Examples.configured (Examples.success JNull))
           (u "get_initiative_status")).
  vm_compute. reflexivity.
Defined.

Lemma initiative_status_summary_witness :
  ∃ od',
    enrich (Examples.world_with Examples.configured (Examples.success JNull))
      (u "get_initiative_status") (JObj Examples.initiative_data) = Ok (JObj od') ∧
    od' !! u "resumen" =
      Some (JStr (u "La iniciativa '"
                  ++ str_of (default (JStr []) (Examples.initiative_data !! u "title"))
                  ++ u "' tiene un progreso del "
                  ++ str_of (default (JInt 0) (Examples.initiative_data !! u "progress"))
                  ++ u "% y está en estado '"
                  ++ str_of (default (JStr []) (Examples.initiative_data !! u "status"))
                  ++ u "'.")) ∧
    od' !! u "link" =
      if truthy_str (u "https://app.example")
         && truthy (default JNull (Examples.initiative_data !! u "id"))
      then Some (JStr (u "https://app.example" ++ u "/initiatives/"
                       ++ str_of (default JNull (Examples.initiative_data !! u "id"))))
      else Examples.initiative_data !! u "link".
Proof.
  apply initiative_status_summary.
  - vm_compute. reflexivity.
  - intros E. vm_compute in E. discriminate E.
Defined.

Lemma limit_defaults_witness :
  (({[ u "query" := JStr (u "revenue") ]} : gmap pystr json) !! u "user_id"
     = Some (JStr (u "revenue")) →
   map_parameters (JObj {[ u "query" := JStr (u "revenue") ]})
     (Ok (u "get_company_overview", JObj ∅)) =
     Ok (u "get_user_initiatives",
         JObj {[ u "user_id" := JStr (u "revenue");
                 u "limit" := default (JInt 10)
                   (({[ u "query" := JStr (u "revenue") ]} : gmap pystr json)
                      !! u "limit") ]}))
  ∧ (({[ u "query" := JStr (u "revenue") ]} : gmap pystr json) !! u "user_id" = None →
     ({[ u "query" := JStr (u "revenue") ]} : gmap pystr json) !! u "query"
       = Some (JStr (u "revenue")) →
     map_parameters (JObj {[ u "query" := JStr (u "revenue") ]})
       (Ok (u "get_company_overview", JObj ∅)) =
       Ok (u "search_initiatives",
           JObj {[ u "query" := JStr (u "revenue");
                   u "limit" := default (JInt 20)
                     (({[ u "query" := JStr (u "revenue") ]} : gmap pystr json)
                        !! u "limit") ]})).
Proof. apply limit_defaults; vm_compute; reflexivity. Defined.

Lemma tag_mapping_shape_witness :
  session_parameters
    (Examples.webhook (u "initiative_status") ∅
       (u "¿Cómo va la Iniciativa de Migración de Datos?")) = Ok (JObj ∅)
  ∧ ((u "get_initiative_status" = u "get_company_overview"
      ∧ JObj {[ u "nombre_iniciativa" := JStr (u "Migración De Datos") ]} = JObj ∅)
     ∨ (u "get_initiative_status" = u "get_initiative_status"
        ∧ (JObj {[ u "nombre_iniciativa" := JStr (u "Migración De Datos") ]} = JObj ∅
           ∨ ∃ t, t ≠ [] ∧
               JObj {[ u "nombre_iniciativa" := JStr (u "Migración De Datos") ]}
               = JObj {[ u "nombre_iniciativa" := JStr t ]}))
     ∨ (u "get_initiative_status" = u "get_area_kpis"
        ∧ (JObj {[ u "nombre_iniciativa" := JStr (u "Migración De Datos") ]} = JObj ∅
           ∨ ∃ t, t ≠ [] ∧
               JObj {[ u "nombre_iniciativa" := JStr (u "Migración De Datos") ]}
               = JObj {[ u "nombre_area" := JStr t ]}))).
Proof.
  apply (tag_mapping_shape
           (Examples.webhook (u "initiative_status") ∅
              (u "¿Cómo va la Iniciativa de Migración de Datos?"))).
  vm_compute. reflexivity.
Defined.

Lemma non_object_body_witness :
  outbound_call (Examples.world_with Examples.configured (Examples.success (JObj ∅)))
    (JInt 5) = None
  ∧ match contains (u "fulfillmentInfo") (JInt 5) with
    | Raise e =>
        bot_stratix_backend_generative
          (Examples.world_with Examples.configured (Examples.success (JObj ∅)))
          (JInt 5) = Escapes e
    | Ok true =>
        bot_stratix_backend_generative
          (Examples.world_with Examples.configured (Examples.success (JObj ∅)))
          (JInt 5) =
          Responds
            {| status := 200;
               body := fulfillment_response
                 (JStr (u "Lo siento, hubo un error: "
                        ++ str_of (JStr (u "Internal error: "
                             ++ builtin_message
                                  (AttributeError (JInt 5) (u "get")))))) |}
    | Ok false =>
        bot_stratix_backend_generative
          (Examples.world_with Examples.configured (Examples.success (JObj ∅)))
          (JInt 5) = Escapes (UnboundLocalError (u "tool_name_full"))
    end.
Proof. apply non_object_body; [reflexivity|discriminate]. Defined.

Lemma error_key_in_data_hides_summary_witness :
  ∃ shown,
    bot_stratix_backend_generative
      (Examples.world_with Examples.configured
         (Examples.success (JObj {[ u "error" := JNull ]})))
      (Examples.webhook (u "company_overview") ∅ (u "resumen general")) =
      Responds {| status := 200;
                  body := fulfillment_response
                    (JStr (u "Lo siento, hubo un error: " ++ str_of shown)) |}
    ∧ (shown = JNull ∨ ∃ x, shown = JStr (error_message x)).
Proof.
  apply (error_key_in_data_hides_summary
           (Examples.world_with Examples.configured
              (Examples.success (JObj {[ u "error" := JNull ]})))
           (Examples.webhook (u "company_overview") ∅ (u "resumen general"))
           Examples.overview_call
           {| status_code := 200; text := [];
              json_body := Ok (JObj {[ u "success" := JBool true;
                                       u "data" := JObj {[ u "error" := JNull ]} ]}) |}
           {[ u "success" := JBool true; u "data" := JObj {[ u "error" := JNull ]} ]}
           {[ u "error" := JNull ]}).
  - apply example_is_webhook_call.
  - vm_compute. reflexivity.
  - reflexivity.
  - reflexivity.
  - reflexivity.
  - vm_compute. reflexivity.
  - vm_compute. reflexivity.
  - vm_compute. reflexivity.
Defined.

End more_runs.
